(** * hexaurl-validate: a shallow embedding of the validation engine

    The development follows the TypeScript sources: the configuration model
    (config.ts), the error model (error.ts) and the validation engine
    (index.ts: [calcStrLen], [validate], [validateDelimiters],
    [isEncodingSafe]).  An earlier revision of the engine
    ([validateWithConfig]) is embedded in [Module Legacy].

    Modelling choices.
    - A JavaScript [number] is an exact rational ([Q]).  The engine only
      multiplies by 4, divides by 3, takes minima and compares; on the
      integers a string length can take, comparing with the rounded double
      and with the exact quotient give the same answer.  NaN and the
      infinities are outside the model.
    - A JavaScript string is the list of its UTF-16 code units; [length]
      is the number of code units, as [String.prototype.length] is.
    - [throw] is an explicit completion: [Normal v] or [Throw e]. *)

From Stdlib Require Import ZArith NArith QArith Qminmax Qround.
From Stdlib Require Import List String Ascii Bool Lia.
Import ListNotations.

(* ------------------------------------------------------------------ *)
(** ** JavaScript values used by the library *)

Module Js.

Definition number := Q.

(** UTF-16 code units, each below 2^16. *)
Definition code_unit := N.
Definition jsstring := list code_unit.

(** An ASCII literal of the source, as a JavaScript string. *)
Definition str (s : string) : jsstring :=
  List.map N_of_ascii (list_ascii_of_string s).

(** [s.length] *)
Definition length (s : jsstring) : number :=
  inject_Z (Z.of_nat (List.length s)).

(** [x < y], [x > y], [x <= y] on numbers *)
Definition lt (x y : number) : bool := negb (Qle_bool y x).
Definition gt (x y : number) : bool := lt y x.
Definition le (x y : number) : bool := Qle_bool x y.

(** [Math.min(x, y)] *)
Definition Math_min (x y : number) : number := Qmin x y.

(** [a ?? b] where [a] is nullable *)
Definition coalesce {A} (a : option A) (b : A) : A :=
  match a with Some v => v | None => b end.

(** [s.startsWith(p)] *)
Fixpoint startsWith (s p : jsstring) : bool :=
  match p, s with
  | [], _ => true
  | _ :: _, [] => false
  | c :: p', d :: s' => N.eqb c d && startsWith s' p'
  end.

(** [s.endsWith(p)] *)
Definition endsWith (s p : jsstring) : bool :=
  startsWith (rev s) (rev p).

(** [s.includes(p)] *)
Fixpoint includes (s p : jsstring) : bool :=
  startsWith s p ||
  match s with
  | [] => false
  | _ :: s' => includes s' p
  end.

(** The regular expressions of the source are all of the shape
    [/^[class]+$/] or [/^[class]*$/], without flags: the whole input,
    code unit by code unit, against one character class. *)
Record RegExp := mkRegExp {
  class : code_unit -> bool;
  one_or_more : bool        (* [+] rather than [*] *)
}.

(** [r.test(s)] *)
Definition test (r : RegExp) (s : jsstring) : bool :=
  (if one_or_more r then negb (Nat.eqb (List.length s) 0) else true)
  && forallb (class r) s.

(** Pieces of a template literal: text and interpolated numbers. *)
Inductive part := Lit (s : string) | Num (x : number).
Definition message := list part.

End Js.

Import Js.

(* ------------------------------------------------------------------ *)
(** ** error.ts *)

Inductive HexaUrlErrorCode :=
| StringTooLong
| StringTooShort
| BytesTooLong
| BytesTooShort
| InvalidCharacter
| InvalidConfig
| InvalidLength
| LeadingTrailingHyphen
| LeadingTrailingUnderscore
| ConsecutiveHyphens
| ConsecutiveUnderscores
| AdjacentHyphenUnderscore.

(** What can be thrown: a plain [Error] or a [HexaUrlError], which
    carries a code ([instanceof HexaUrlError] tells them apart). *)
Inductive exn :=
| Error (msg : message)
| HexaUrlError (msg : message) (code : HexaUrlErrorCode).

Inductive completion (A : Type) :=
| Normal (v : A)
| Throw (e : exn).
Arguments Normal {A} v.
Arguments Throw {A} e.

Definition bind {A B} (m : completion A) (k : A -> completion B)
  : completion B :=
  match m with
  | Normal v => k v
  | Throw e => Throw e
  end.

Declare Scope js_scope.
Delimit Scope js_scope with js.
Notation "x <- m ;; k" := (bind m (fun x => k))
  (at level 61, m at next level, right associativity) : js_scope.
Notation "m ;; k" := (bind m (fun _ => k))
  (at level 61, right associativity) : js_scope.

(** [cond && throwing()] used as a statement *)
Definition when (cond : bool) (m : completion unit) : completion unit :=
  if cond then m else Normal tt.

(* ------------------------------------------------------------------ *)
(** ** config.ts *)

Inductive IdentifierComposition :=
| Alphanumeric
| AlphanumericHyphen
| AlphanumericUnderscore
| AlphanumericHyphenUnderscore.

Record DelimiterRules := mkDelimiterRules {
  allowLeadingTrailingHyphens : bool;
  allowLeadingTrailingUnderscores : bool;
  allowConsecutiveHyphens : bool;
  allowConsecutiveUnderscores : bool;
  allowAdjacentHyphenUnderscore : bool
}.

(** A property of an options object: missing ([undefined]), [null],
    or a value. *)
Inductive optional (A : Type) :=
| Undefined
| Null
| Value (v : A).
Arguments Undefined {A}.
Arguments Null {A}.
Arguments Value {A} v.

(** [o ?? d]: both [undefined] and [null] give way to [d]. *)
Definition nullish {A} (o : optional A) (d : A) : A :=
  match o with Value v => v | _ => d end.

(** The same for a nullable result: [o ?? null]. *)
Definition nullish_null {A} (o : optional A) : option A :=
  match o with Value v => Some v | _ => None end.

Record ConfigOptions := mkConfigOptions {
  opt_minLength : optional number;
  opt_maxLength : optional number;
  opt_identifier : option IdentifierComposition;
  opt_delimiter : optional DelimiterRules
}.

(** [{}] *)
Definition no_options : ConfigOptions :=
  mkConfigOptions Undefined Undefined None Undefined.

Record Config := mkConfig {
  minLength : option number;
  maxLength : option number;
  identifier : IdentifierComposition;
  delimiter : option DelimiterRules
}.

Module ConfigClass.

Definition DEFAULT_MIN_LENGTH : number := 3.

(** [private validate()] *)
Definition validate (this : Config) : completion unit :=
  match minLength this, maxLength this with
  | Some mn, Some mx =>
      when (Js.gt mn mx)
        (Throw (Error
           [Lit "Minimum length cannot be greater than maximum length"]))
  | _, _ => Normal tt
  end.

(** [new Config(minLength, maxLength, identifier, delimiter)] *)
Definition new (minL maxL : option number)
    (ident : IdentifierComposition) (delim : option DelimiterRules)
  : completion Config :=
  let this := mkConfig minL maxL ident delim in
  (validate this ;; Normal this)%js.

(** [Config.create(options)] *)
Definition create (options : ConfigOptions) : completion Config :=
  new (Some (nullish (opt_minLength options) DEFAULT_MIN_LENGTH))
      (nullish_null (opt_maxLength options))
      (Js.coalesce (opt_identifier options) AlphanumericHyphen)
      (nullish_null (opt_delimiter options)).

End ConfigClass.

(** [createDelimiterRules(o)]: the strict defaults, overridden by the
    properties present in [o]. *)
Record PartialDelimiterRules := mkPartialDelimiterRules {
  p_allowLeadingTrailingHyphens : option bool;
  p_allowLeadingTrailingUnderscores : option bool;
  p_allowConsecutiveHyphens : option bool;
  p_allowConsecutiveUnderscores : option bool;
  p_allowAdjacentHyphenUnderscore : option bool
}.

Definition no_rules : PartialDelimiterRules :=
  mkPartialDelimiterRules None None None None None.

Definition createDelimiterRules (o : PartialDelimiterRules) : DelimiterRules :=
  mkDelimiterRules
    (Js.coalesce (p_allowLeadingTrailingHyphens o) false)
    (Js.coalesce (p_allowLeadingTrailingUnderscores o) false)
    (Js.coalesce (p_allowConsecutiveHyphens o) false)
    (Js.coalesce (p_allowConsecutiveUnderscores o) false)
    (Js.coalesce (p_allowAdjacentHyphenUnderscore o) false).

Definition createAllowedDelimiterRules : DelimiterRules :=
  mkDelimiterRules true true true true true.

(** [Config.minimal()] *)
Definition Config_minimal : completion Config :=
  ConfigClass.new None None AlphanumericHyphenUnderscore
    (Some createAllowedDelimiterRules).

(** [createConfig(o)] *)
Definition createConfig (o : ConfigOptions) : completion Config :=
  ConfigClass.create o.

(** The default configuration, as [Config.create()] builds it. *)
Definition default_config : Config :=
  mkConfig (Some 3) None AlphanumericHyphen None.

(* ------------------------------------------------------------------ *)
(** ** index.ts: the validation engine *)

Definition hyphen : code_unit := 45%N.       (* '-' *)
Definition underscore : code_unit := 95%N.   (* '_' *)

Definition in_range (lo hi c : code_unit) : bool :=
  (N.leb lo c && N.leb c hi)%bool.

(** [0-9A-Za-z] *)
Definition alphanumeric (c : code_unit) : bool :=
  in_range 48%N 57%N c || in_range 65%N 90%N c || in_range 97%N 122%N c.

Module PATTERNS.
(** [/^[0-9A-Za-z]+$/] *)
Definition ALPHANUMERIC : RegExp :=
  mkRegExp alphanumeric true.
(** [/^[0-9A-Za-z-]+$/] *)
Definition ALPHANUMERIC_HYPHEN : RegExp :=
  mkRegExp (fun c => alphanumeric c || N.eqb c hyphen) true.
(** [/^[0-9A-Za-z_]+$/] *)
Definition ALPHANUMERIC_UNDERSCORE : RegExp :=
  mkRegExp (fun c => alphanumeric c || N.eqb c underscore) true.
(** [/^[0-9A-Za-z\-_]+$/] *)
Definition ALPHANUMERIC_HYPHEN_UNDERSCORE : RegExp :=
  mkRegExp (fun c => alphanumeric c || N.eqb c hyphen || N.eqb c underscore)
           true.
End PATTERNS.

(** [/^[\x00-\x7F]*$/] *)
Definition ASCII_ONLY : RegExp :=
  mkRegExp (in_range 0%N 127%N) false.

(** [const calcStrLen = (n) => (n * 4) / 3] *)
Definition calcStrLen (n : number) : number := (n * 4) / 3.

Definition getPatternForIdentifier (ident : IdentifierComposition) : RegExp :=
  match ident with
  | Alphanumeric => PATTERNS.ALPHANUMERIC
  | AlphanumericHyphen => PATTERNS.ALPHANUMERIC_HYPHEN
  | AlphanumericUnderscore => PATTERNS.ALPHANUMERIC_UNDERSCORE
  | AlphanumericHyphenUnderscore => PATTERNS.ALPHANUMERIC_HYPHEN_UNDERSCORE
  end.

(** [throwError(code, message)] *)
Definition throwError (code : HexaUrlErrorCode) (msg : message)
  : completion unit :=
  Throw (HexaUrlError msg code).

(** [o !== null && ...] guarding a statement that reads [o] *)
Definition if_not_null {A} (o : option A) (k : A -> completion unit)
  : completion unit :=
  match o with Some v => k v | None => Normal tt end.

Definition validateDelimiters (input : jsstring) (rules : DelimiterRules)
  : completion unit :=
  (when (negb (allowLeadingTrailingHyphens rules)
         && (startsWith input [hyphen] || endsWith input [hyphen]))
     (throwError LeadingTrailingHyphen
        [Lit "Hyphens cannot start or end this type of HexaURL"]) ;;
   when (negb (allowLeadingTrailingUnderscores rules)
         && (startsWith input [underscore] || endsWith input [underscore]))
     (throwError LeadingTrailingUnderscore
        [Lit "Underscores cannot start or end this type of HexaURL"]) ;;
   when (negb (allowConsecutiveHyphens rules)
         && includes input [hyphen; hyphen])
     (throwError ConsecutiveHyphens
        [Lit "This type of HexaURL cannot include consecutive hyphens"]) ;;
   when (negb (allowConsecutiveUnderscores rules)
         && includes input [underscore; underscore])
     (throwError ConsecutiveUnderscores
        [Lit "This type of HexaURL cannot include consecutive underscores"]) ;;
   when (negb (allowAdjacentHyphenUnderscore rules)
         && (includes input [hyphen; underscore]
             || includes input [underscore; hyphen]))
     (throwError AdjacentHyphenUnderscore
        [Lit "This type of HexaURL cannot include adjacent hyphens and underscores"]))%js.

(** [effectiveMax] of [validate] *)
Definition effectiveMax (config : Config) (byteSize : number) : number :=
  match maxLength config with
  | Some mx => Math_min mx (calcStrLen byteSize)
  | None => calcStrLen byteSize
  end.

(** [validate(input, config, byteSize)] *)
Definition validate (input : jsstring) (config : Config) (byteSize : number)
  : completion unit :=
  let len := Js.length input in
  let effectiveMax := effectiveMax config byteSize in
  (if_not_null (minLength config) (fun mn =>
     when (Js.lt effectiveMax mn)
       (throwError InvalidConfig
          [Lit "Maximum length ("; Num effectiveMax;
           Lit ") cannot be less than minimum length ("; Num mn; Lit ")"])) ;;
   if_not_null (minLength config) (fun mn =>
     when (Js.lt len mn)
       (throwError StringTooShort
          [Lit "String is too short: minimum length is ";
           Num mn; Lit " characters"])) ;;
   when (Js.gt len effectiveMax)
     (throwError StringTooLong
        [Lit "String is too long: maximum length is ";
         Num effectiveMax; Lit " characters"]) ;;
   when (negb (test (getPatternForIdentifier (identifier config)) input))
     (throwError InvalidCharacter
        [Lit "Invalid character in this type of HexaURL"]) ;;
   validateDelimiters input
     (Js.coalesce (delimiter config) (createDelimiterRules no_rules)))%js.

(** [validate(input)]: both defaulted parameters,
    [config = Config.create()] and [byteSize = 16]. *)
Definition validate_defaults (input : jsstring) : completion unit :=
  (config <- ConfigClass.create no_options ;;
   validate input config 16)%js.

(** [isEncodingSafe(input, byteSize)] *)
Definition isEncodingSafe (input : jsstring) (byteSize : number) : bool :=
  Js.le (Js.length input) (calcStrLen byteSize) && test ASCII_ONLY input.

(** The earlier revision of the engine: no configuration check, and the
    delimiter rules are applied only when the configuration has some. *)
Module Legacy.

Definition validateWithConfig (input : jsstring) (config : Config)
    (byteSize : number) : completion unit :=
  let len := Js.length input in
  (if_not_null (minLength config) (fun mn =>
     when (Js.lt len mn)
       (throwError StringTooShort
          [Lit "String is too short: minimum length is ";
           Num mn; Lit " characters"])) ;;
   let effectiveMax := effectiveMax config byteSize in
   when (Js.gt len effectiveMax)
     (throwError StringTooLong
        [Lit "String is too long: maximum length is ";
         Num effectiveMax; Lit " characters"]) ;;
   let pattern := getPatternForIdentifier (identifier config) in
   when (negb (test pattern input))
     (throwError InvalidCharacter
        [Lit "Invalid character in this type of HexaURL"]) ;;
   match delimiter config with
   | Some rules => validateDelimiters input rules
   | None => Normal tt
   end)%js.

Definition validate (input : jsstring) (byteSize : number)
  : completion unit :=
  (config <- ConfigClass.create no_options ;;
   validateWithConfig input config byteSize)%js.

End Legacy.

(* ------------------------------------------------------------------ *)
(** ** Observing a call *)

(** What a caller can tell of a finished call: it returned, it threw a
    [HexaUrlError] with a code, or it threw something else. *)
Inductive outcome :=
| Success
| Fails (code : HexaUrlErrorCode)
| FailsPlain.

Definition outcome_of {A} (c : completion A) : outcome :=
  match c with
  | Normal _ => Success
  | Throw (HexaUrlError _ code) => Fails code
  | Throw (Error _) => FailsPlain
  end.

(** [e instanceof HexaUrlError] *)
Definition instanceof_HexaUrlError (e : exn) : bool :=
  match e with HexaUrlError _ _ => true | Error _ => false end.

(* ------------------------------------------------------------------ *)
(** ** Unicode scalar values and UTF-16 *)

Module Utf16.

Definition is_high_surrogate (u : code_unit) : bool :=
  in_range 55296%N 56319%N u.       (* D800..DBFF *)
Definition is_low_surrogate (u : code_unit) : bool :=
  in_range 56320%N 57343%N u.       (* DC00..DFFF *)

(** A Unicode scalar value: a code point that is not a surrogate. *)
Definition is_scalar (c : N) : bool :=
  N.leb c 1114111%N && negb (in_range 55296%N 57343%N c).

(** Scalars outside the Basic Multilingual Plane take two code units. *)
Definition is_astral (c : N) : bool := N.leb 65536%N c.

Definition encode1 (c : N) : jsstring :=
  if is_astral c
  then [ (55296 + (c - 65536) / 1024)%N; (56320 + (c - 65536) mod 1024)%N ]
  else [ c ].

(** The JavaScript string holding the given scalar values. *)
Definition encode (cs : list N) : jsstring := flat_map encode1 cs.

(** The number of code points of a string, a surrogate pair counting
    once (what iterating the string by code point gives). *)
Fixpoint scalar_count (s : jsstring) : nat :=
  match s with
  | [] => 0
  | u :: t =>
      match t with
      | v :: t' =>
          if is_high_surrogate u && is_low_surrogate v
          then S (scalar_count t')
          else S (scalar_count t)
      | [] => 1
      end
  end.

(** The number of bytes of the UTF-8 form of scalar values. *)
Definition utf8_length1 (c : N) : nat :=
  if N.leb c 127%N then 1
  else if N.leb c 2047%N then 2
  else if N.leb c 65535%N then 3
  else 4.

Definition utf8_length (cs : list N) : nat :=
  list_sum (List.map utf8_length1 cs).

(** U+1F98A, the fox of the test suite. *)
Definition fox : N := 129418%N.

End Utf16.

(* ------------------------------------------------------------------ *)
(** ** The checks, as the specification lists them *)

Module Spec.

(** floor(n * 4 / 3) on integers *)
Definition lengthAccounting (n : Z) : Z := (n * 4 / 3)%Z.

(** The first check of a list that is violated. *)
Fixpoint first_violation (checks : list (bool * HexaUrlErrorCode))
  : outcome :=
  match checks with
  | [] => Success
  | (violated, code) :: rest =>
      if violated then Fails code else first_violation rest
  end.

(** Steps 2 to 4: configuration against byte budget, minimum length,
    maximum length, for an input measured as [len]. *)
Definition length_checks (len : number) (config : Config)
    (byteSize : number) : list (bool * HexaUrlErrorCode) :=
  [ (match minLength config with
     | Some mn => Js.lt (effectiveMax config byteSize) mn
     | None => false
     end, InvalidConfig);
    (match minLength config with
     | Some mn => Js.lt len mn
     | None => false
     end, StringTooShort);
    (Js.gt len (effectiveMax config byteSize), StringTooLong) ].

(** Step 5: the allowed set of each composition. *)
Definition allowed (ident : IdentifierComposition) (c : code_unit) : bool :=
  match ident with
  | Alphanumeric => alphanumeric c
  | AlphanumericHyphen => alphanumeric c || N.eqb c hyphen
  | AlphanumericUnderscore => alphanumeric c || N.eqb c underscore
  | AlphanumericHyphenUnderscore =>
      alphanumeric c || N.eqb c hyphen || N.eqb c underscore
  end.

(** The input holds a character outside the allowed set. *)
Definition has_disallowed (ident : IdentifierComposition)
    (input : jsstring) : bool :=
  existsb (fun c => negb (allowed ident c)) input.

Definition composition_check (input : jsstring) (config : Config)
  : list (bool * HexaUrlErrorCode) :=
  [ (match input with [] => true | _ => false end
     || has_disallowed (identifier config) input,
     InvalidCharacter) ].

(** Step 6: the five delimiter rules, by flag. *)
Inductive flag :=
| LeadingTrailingHyphens
| LeadingTrailingUnderscores
| ConsecutiveHyphensFlag
| ConsecutiveUnderscoresFlag
| AdjacentHyphenUnderscoreFlag.

Definition all_flags : list flag :=
  [ LeadingTrailingHyphens; LeadingTrailingUnderscores;
    ConsecutiveHyphensFlag; ConsecutiveUnderscoresFlag;
    AdjacentHyphenUnderscoreFlag ].

Definition flag_eqb (f g : flag) : bool :=
  match f, g with
  | LeadingTrailingHyphens, LeadingTrailingHyphens
  | LeadingTrailingUnderscores, LeadingTrailingUnderscores
  | ConsecutiveHyphensFlag, ConsecutiveHyphensFlag
  | ConsecutiveUnderscoresFlag, ConsecutiveUnderscoresFlag
  | AdjacentHyphenUnderscoreFlag, AdjacentHyphenUnderscoreFlag => true
  | _, _ => false
  end.

Definition allows (rules : DelimiterRules) (f : flag) : bool :=
  match f with
  | LeadingTrailingHyphens => allowLeadingTrailingHyphens rules
  | LeadingTrailingUnderscores => allowLeadingTrailingUnderscores rules
  | ConsecutiveHyphensFlag => allowConsecutiveHyphens rules
  | ConsecutiveUnderscoresFlag => allowConsecutiveUnderscores rules
  | AdjacentHyphenUnderscoreFlag => allowAdjacentHyphenUnderscore rules
  end.

(** The pattern a flag gates. *)
Definition forbidden_pattern (f : flag) (input : jsstring) : bool :=
  match f with
  | LeadingTrailingHyphens =>
      startsWith input [hyphen] || endsWith input [hyphen]
  | LeadingTrailingUnderscores =>
      startsWith input [underscore] || endsWith input [underscore]
  | ConsecutiveHyphensFlag => includes input [hyphen; hyphen]
  | ConsecutiveUnderscoresFlag => includes input [underscore; underscore]
  | AdjacentHyphenUnderscoreFlag =>
      includes input [hyphen; underscore]
      || includes input [underscore; hyphen]
  end.

Definition flag_error (f : flag) : HexaUrlErrorCode :=
  match f with
  | LeadingTrailingHyphens => LeadingTrailingHyphen
  | LeadingTrailingUnderscores => LeadingTrailingUnderscore
  | ConsecutiveHyphensFlag => ConsecutiveHyphens
  | ConsecutiveUnderscoresFlag => ConsecutiveUnderscores
  | AdjacentHyphenUnderscoreFlag => AdjacentHyphenUnderscore
  end.

(** The rules in force: those of the configuration, or the strict
    defaults when it has none. *)
Definition rules_in_force (config : Config) : DelimiterRules :=
  match delimiter config with
  | Some rules => rules
  | None => mkDelimiterRules false false false false false
  end.

Definition delimiter_checks (input : jsstring) (rules : DelimiterRules)
  : list (bool * HexaUrlErrorCode) :=
  List.map (fun f => (negb (allows rules f) && forbidden_pattern f input,
                      flag_error f)) all_flags.

(** Steps 2 to 6 in order, with the input measured as [len]. *)
Definition ordered_checks (len : number) (input : jsstring)
    (config : Config) (byteSize : number) : list (bool * HexaUrlErrorCode) :=
  length_checks len config byteSize
  ++ composition_check input config
  ++ delimiter_checks input (rules_in_force config).

(** The input contains the pattern of [f] and of no other flag. *)
Definition only_pattern (f : flag) (input : jsstring) : bool :=
  forallb (fun g => Bool.eqb (forbidden_pattern g input) (flag_eqb g f))
          all_flags.

(** The length read as a count of Unicode scalar values. *)
Definition scalar_length (s : jsstring) : number :=
  inject_Z (Z.of_nat (Utf16.scalar_count s)).

(** Every code unit is in 0x00..0x7F. *)
Definition ascii_only (s : jsstring) : bool :=
  forallb (fun c => N.leb c 127%N) s.

End Spec.

(** A delimiter: hyphen or underscore. *)
Definition is_delimiter (c : code_unit) : bool :=
  N.eqb c hyphen || N.eqb c underscore.

(** The delimiters that the pattern of a flag is made of. *)
Definition flag_delimiters (f : Spec.flag) : list code_unit :=
  match f with
  | Spec.LeadingTrailingHyphens | Spec.ConsecutiveHyphensFlag => [hyphen]
  | Spec.LeadingTrailingUnderscores | Spec.ConsecutiveUnderscoresFlag =>
      [underscore]
  | Spec.AdjacentHyphenUnderscoreFlag => [hyphen; underscore]
  end.

(* ------------------------------------------------------------------ *)
(** ** zod/index.ts: the schema extension *)

(** The numeric value of an enum member, which [${err.code}] prints. *)
Definition code_number (code : HexaUrlErrorCode) : number :=
  match code with
  | StringTooLong => 0
  | StringTooShort => 1
  | BytesTooLong => 2
  | BytesTooShort => 3
  | InvalidCharacter => 4
  | InvalidConfig => 5
  | InvalidLength => 6
  | LeadingTrailingHyphen => 7
  | LeadingTrailingUnderscore => 8
  | ConsecutiveHyphens => 9
  | ConsecutiveUnderscores => 10
  | AdjacentHyphenUnderscore => 11
  end.

Module Zod.

Record issue := mkIssue {
  issue_code : string;
  issue_message : message
}.

(** The refinement context, as the issues added to it so far. *)
Definition ctx := list issue.

(** [ctx.addIssue(i)] *)
Definition addIssue (i : issue) (c : ctx) : ctx := c ++ [i].

(** The callback that [hexaurl(config, byteSize)] hands to
    [superRefine]: [try { validate(...) } catch (err) { ... }]. *)
Definition hexaurl (config : Config) (byteSize : number)
    (value : jsstring) (c : ctx) : ctx :=
  match validate value config byteSize with
  | Normal _ => c
  | Throw (HexaUrlError msg code) =>
      addIssue
        (mkIssue "custom"
           (msg ++ [Lit " (code: "; Num (code_number code); Lit ")"]))
        c
  | Throw (Error _) =>
      addIssue
        (mkIssue "custom" [Lit "Unknown error during HexaURL validation"])
        c
  end.

End Zod.

(* ------------------------------------------------------------------ *)
(** * Properties *)

(** ** Numbers and comparisons *)

Lemma lt_iff (x y : number) : Js.lt x y = true <-> x < y.
Proof.
  unfold Js.lt. rewrite negb_true_iff.
  destruct (Qle_bool y x) eqn:E.
  - apply Qle_bool_iff in E. split; [discriminate | intro H].
    exfalso. exact (Qlt_not_le _ _ H E).
  - split; [intros _ | reflexivity].
    apply Qnot_le_lt. intro H. apply Qle_bool_iff in H. congruence.
Qed.

Lemma le_iff (x y : number) : Js.le x y = true <-> x <= y.
Proof. apply Qle_bool_iff. Qed.


(** Against an integer, the exact quotient and its floor compare alike. *)
Lemma le_calcStrLen (k n : Z) :
  inject_Z k <= calcStrLen (inject_Z n) <-> (k <= Spec.lengthAccounting n)%Z.
Proof.
  unfold calcStrLen, Spec.lengthAccounting, Qle, Qdiv, Qmult, Qinv, inject_Z;
    simpl.
  rewrite !Z.mul_1_r.
  split; intro H.
  - apply Z.div_le_lower_bound; lia.
  - pose proof (Z.mul_div_le (n * 4) 3 ltac:(lia)). lia.
Qed.

Lemma length_le_calcStrLen (s : jsstring) (n : Z) :
  Js.le (Js.length s) (calcStrLen (inject_Z n)) = true
  <-> (Z.of_nat (List.length s) <= Spec.lengthAccounting n)%Z.
Proof. rewrite le_iff. apply le_calcStrLen. Qed.

(** ** Regular expressions *)

Lemma forallb_existsb_negb {A} (p : A -> bool) (l : list A) :
  forallb p l = negb (existsb (fun x => negb (p x)) l).
Proof.
  induction l as [|a l IH]; simpl; [reflexivity|].
  rewrite IH. destruct (p a); reflexivity.
Qed.

Lemma class_of_pattern (ident : IdentifierComposition) (c : code_unit) :
  class (getPatternForIdentifier ident) c = Spec.allowed ident c.
Proof. destruct ident; reflexivity. Qed.

Lemma pattern_one_or_more (ident : IdentifierComposition) :
  one_or_more (getPatternForIdentifier ident) = true.
Proof. destruct ident; reflexivity. Qed.

Lemma test_pattern (ident : IdentifierComposition) (input : jsstring) :
  test (getPatternForIdentifier ident) input
  = negb (match input with [] => true | _ => false end
          || existsb (fun c => negb (Spec.allowed ident c)) input).
Proof.
  unfold test. rewrite pattern_one_or_more, forallb_existsb_negb.
  rewrite negb_orb. f_equal.
  - destruct input; reflexivity.
  - f_equal. induction input as [|c input IH]; simpl; [reflexivity|].
    now rewrite class_of_pattern, IH.
Qed.

Lemma test_ascii (input : jsstring) :
  test ASCII_ONLY input = Spec.ascii_only input.
Proof.
  unfold test, Spec.ascii_only; cbn [one_or_more ASCII_ONLY class andb].
  induction input as [|c input IH]; simpl; [reflexivity|].
  rewrite IH. unfold in_range. now destruct c.
Qed.

(** ** The engine against the ordered list of checks *)

Lemma outcome_when (b : bool) (code : HexaUrlErrorCode) (msg : message)
    (k : completion unit) :
  outcome_of (bind (when b (throwError code msg)) (fun _ => k))
  = if b then Fails code else outcome_of k.
Proof. destruct b; reflexivity. Qed.

Lemma outcome_when_last (b : bool) (code : HexaUrlErrorCode) (msg : message) :
  outcome_of (when b (throwError code msg))
  = if b then Fails code else Success.
Proof. destruct b; reflexivity. Qed.

Lemma validateDelimiters_checks (input : jsstring) (rules : DelimiterRules) :
  outcome_of (validateDelimiters input rules)
  = Spec.first_violation (Spec.delimiter_checks input rules).
Proof.
  unfold validateDelimiters.
  rewrite !outcome_when, outcome_when_last. reflexivity.
Qed.

Lemma rules_in_force_eq (config : Config) :
  Js.coalesce (delimiter config) (createDelimiterRules no_rules)
  = Spec.rules_in_force config.
Proof. destruct config as [? ? ? [r|]]; reflexivity. Qed.

Lemma first_violation_app (l1 l2 : list (bool * HexaUrlErrorCode)) :
  Spec.first_violation (l1 ++ l2)
  = match Spec.first_violation l1 with
    | Success => Spec.first_violation l2
    | o => o
    end.
Proof.
  induction l1 as [|[b c] l1 IH]; simpl; [reflexivity|].
  destruct b; [reflexivity | exact IH].
Qed.

Lemma validate_checks (input : jsstring) (config : Config)
    (byteSize : number) :
  outcome_of (validate input config byteSize)
  = Spec.first_violation
      (Spec.ordered_checks (Js.length input) input config byteSize).
Proof.
  unfold validate, Spec.ordered_checks, Spec.length_checks,
    Spec.composition_check.
  rewrite rules_in_force_eq, test_pattern, negb_involutive.
  cbn [app Spec.first_violation].
  destruct (minLength config) as [mn|]; cbn [if_not_null].
  - rewrite !outcome_when.
    rewrite validateDelimiters_checks. reflexivity.
  - cbn [bind]. rewrite !outcome_when.
    rewrite validateDelimiters_checks. reflexivity.
Qed.

(** Whatever the engine throws is a [HexaUrlError]. *)
Lemma validate_not_plain (input : jsstring) (config : Config)
    (byteSize : number) :
  outcome_of (validate input config byteSize) <> FailsPlain.
Proof.
  rewrite validate_checks.
  generalize (Spec.ordered_checks (Js.length input) input config byteSize).
  intro l. induction l as [|[b c] l IH]; simpl; [discriminate|].
  destruct b; [discriminate | exact IH].
Qed.

(** What [first_violation] means: the reported check is violated and
    every check before it is not. *)
Lemma first_violation_fails (l : list (bool * HexaUrlErrorCode))
    (code : HexaUrlErrorCode) :
  Spec.first_violation l = Fails code ->
  exists pre post,
    l = pre ++ (true, code) :: post
    /\ Forall (fun c => fst c = false) pre.
Proof.
  induction l as [|[b c] l IH]; simpl; [discriminate|].
  destruct b.
  - intro H. injection H as ->. exists [], l. split; [reflexivity|constructor].
  - intro H. destruct (IH H) as (pre & post & -> & Hpre).
    exists ((false, c) :: pre), post. split; [reflexivity|].
    constructor; [reflexivity | exact Hpre].
Qed.

Lemma first_violation_success (l : list (bool * HexaUrlErrorCode)) :
  Spec.first_violation l = Success ->
  Forall (fun c => fst c = false) l.
Proof.
  induction l as [|[b c] l IH]; simpl; [constructor|].
  destruct b; [discriminate|]. intro H.
  constructor; [reflexivity | exact (IH H)].
Qed.

(* ------------------------------------------------------------------ *)
(** ** Length accounting *)

Lemma create_default : ConfigClass.create no_options = Normal default_config.
Proof. reflexivity. Qed.

(** C1: [calcStrLen] on the byte budgets 16, 8 and 32.  The function
    returns the unrounded quotient n*4/3 (64/3, 32/3, 128/3), not its
    floor (21, 10, 42); the fraction reaches the caller in the message of
    the [StringTooLong] error. *)
Theorem calcStrLen_is_not_floored :
  calcStrLen 16 = 64 # 3 /\ ~ calcStrLen 16 == 21
  /\ calcStrLen 8 = 32 # 3 /\ ~ calcStrLen 8 == 10
  /\ calcStrLen 32 = 128 # 3 /\ ~ calcStrLen 32 == 42
  /\ validate (str "aaaaaaaaaaa") default_config 8
     = Throw (HexaUrlError
                [Lit "String is too long: maximum length is ";
                 Num (32 # 3); Lit " characters"]
                StringTooLong).
Proof.
  repeat split; try reflexivity; intro H; vm_compute in H; discriminate.
Qed.

(* ------------------------------------------------------------------ *)
(** ** Order of the checks *)

(** C2: [validate] reports the first violated check of the fixed order
    InvalidConfig, StringTooShort, StringTooLong, InvalidCharacter,
    LeadingTrailingHyphen, LeadingTrailingUnderscore, ConsecutiveHyphens,
    ConsecutiveUnderscores, AdjacentHyphenUnderscore: when it fails with a
    code, that check is violated and all checks before it are not; when it
    succeeds, no check is violated. *)
Theorem validate_first_violated_check :
  forall (input : jsstring) (config : Config) (byteSize : number),
    outcome_of (validate input config byteSize)
    = Spec.first_violation
        (Spec.ordered_checks (Js.length input) input config byteSize)
    /\ List.map snd
         (Spec.ordered_checks (Js.length input) input config byteSize)
       = [ InvalidConfig; StringTooShort; StringTooLong; InvalidCharacter;
           LeadingTrailingHyphen; LeadingTrailingUnderscore;
           ConsecutiveHyphens; ConsecutiveUnderscores;
           AdjacentHyphenUnderscore ]
    /\ (forall code,
          outcome_of (validate input config byteSize) = Fails code ->
          exists pre post,
            Spec.ordered_checks (Js.length input) input config byteSize
            = pre ++ (true, code) :: post
            /\ Forall (fun c => fst c = false) pre)
    /\ (outcome_of (validate input config byteSize) = Success ->
        Forall (fun c => fst c = false)
          (Spec.ordered_checks (Js.length input) input config byteSize)).
Proof.
  intros input config byteSize.
  split; [apply validate_checks|].
  split; [reflexivity|].
  rewrite validate_checks. split.
  - intros code H. now apply first_violation_fails.
  - apply first_violation_success.
Qed.

(* ------------------------------------------------------------------ *)
(** ** Absent delimiter rules *)

(** C3: a configuration without delimiter rules is validated under the
    strict rules (all five flags false), not with the delimiter checks
    skipped; [validate("too--many-hyphens")] with the defaults fails with
    ConsecutiveHyphens. *)
Theorem validate_null_delimiter_is_strict :
  (forall (input : jsstring) (mn mx : option number)
          (ident : IdentifierComposition) (byteSize : number),
      validate input (mkConfig mn mx ident None) byteSize
      = validate input
          (mkConfig mn mx ident
             (Some (mkDelimiterRules false false false false false)))
          byteSize)
  /\ outcome_of (validate_defaults (str "too--many-hyphens"))
     = Fails ConsecutiveHyphens
  /\ outcome_of (validate (str "too--many-hyphens") default_config 16)
     = Fails ConsecutiveHyphens.
Proof.
  split; [|split]; reflexivity.
Qed.

(* ------------------------------------------------------------------ *)
(** ** The fast safety check *)

Lemma scalar_count_ascii (s : jsstring) :
  Spec.ascii_only s = true -> Utf16.scalar_count s = List.length s.
Proof.
  induction s as [|u t IH]; [reflexivity|].
  intro H. cbn [Spec.ascii_only forallb] in H.
  apply andb_prop in H as [Hu Ht].
  cbn [Utf16.scalar_count List.length].
  destruct t as [|v t']; [reflexivity|].
  assert (Utf16.is_high_surrogate u = false) as ->.
  { unfold Utf16.is_high_surrogate, in_range.
    apply N.leb_le in Hu. apply andb_false_intro1.
    apply N.leb_gt. lia. }
  cbn [andb]. f_equal. apply IH. exact Ht.
Qed.

(** C4: [isEncodingSafe(s, n)] is true exactly when [s] has at most
    floor(n*4/3) characters and all of them are in 0x00..0x7F; it is a
    total boolean function of the string and the byte size alone (no
    configuration, hence no composition or delimiter rule, enters it). *)
Theorem isEncodingSafe_iff :
  forall (s : jsstring) (n : N),
    (isEncodingSafe s (inject_Z (Z.of_N n)) = true
     <-> (Z.of_nat (List.length s) <= Spec.lengthAccounting (Z.of_N n))%Z
         /\ Spec.ascii_only s = true)
    /\ (isEncodingSafe s (inject_Z (Z.of_N n)) = true
        <-> (Z.of_nat (Utf16.scalar_count s)
             <= Spec.lengthAccounting (Z.of_N n))%Z
            /\ Spec.ascii_only s = true).
Proof.
  intros s n.
  assert (isEncodingSafe s (inject_Z (Z.of_N n)) = true
          <-> (Z.of_nat (List.length s) <= Spec.lengthAccounting (Z.of_N n))%Z
              /\ Spec.ascii_only s = true) as E.
  { unfold isEncodingSafe. rewrite andb_true_iff, test_ascii.
    now rewrite length_le_calcStrLen. }
  split; [exact E|].
  rewrite E. split; intros [Hl Ha]; split; trivial.
  - now rewrite (scalar_count_ascii _ Ha).
  - now rewrite <- (scalar_count_ascii _ Ha).
Qed.

(* ------------------------------------------------------------------ *)
(** ** Composition against length *)

(** C5, as stated, fails: ["a!"] holds a character outside the default
    composition's set, and [validate] reports StringTooShort for it. *)
Lemma invalid_character_regardless_of_length_fails :
  Spec.has_disallowed (identifier default_config) (str "a!") = true
  /\ outcome_of (validate (str "a!") default_config 16) = Fails StringTooShort
  /\ outcome_of (validate (str "a!") default_config 16)
     <> Fails InvalidCharacter.
Proof. repeat split; try reflexivity. discriminate. Qed.

(** C5, amended: an input holding a character outside the composition's
    allowed set always fails; it fails with InvalidCharacter when the
    configuration and length checks pass, and with the code of the first
    of those checks that is violated otherwise. *)
Theorem invalid_character_after_length_checks :
  forall (input : jsstring) (config : Config) (byteSize : number),
    Spec.has_disallowed (identifier config) input = true ->
    outcome_of (validate input config byteSize) <> Success
    /\ outcome_of (validate input config byteSize)
       = Spec.first_violation
           (Spec.length_checks (Js.length input) config byteSize
            ++ [(true, InvalidCharacter)])
    /\ (Spec.first_violation
          (Spec.length_checks (Js.length input) config byteSize) = Success ->
        outcome_of (validate input config byteSize) = Fails InvalidCharacter).
Proof.
  intros input config byteSize H.
  assert (outcome_of (validate input config byteSize)
          = Spec.first_violation
              (Spec.length_checks (Js.length input) config byteSize
               ++ [(true, InvalidCharacter)])) as E.
  { rewrite validate_checks. unfold Spec.ordered_checks.
    rewrite !first_violation_app.
    destruct (Spec.first_violation
                (Spec.length_checks (Js.length input) config byteSize));
      try reflexivity.
    unfold Spec.composition_check. rewrite H, orb_true_r. reflexivity. }
  split; [|split; [exact E|]].
  - rewrite E, first_violation_app.
    destruct (Spec.first_violation
                (Spec.length_checks (Js.length input) config byteSize));
      discriminate.
  - intro Hl. rewrite E, first_violation_app, Hl. reflexivity.
Qed.

Lemma invalid_character_after_length_checks_witness :
  outcome_of (validate (str "a!b") default_config 16) = Fails InvalidCharacter.
Proof.
  apply (invalid_character_after_length_checks (str "a!b") default_config 16);
    reflexivity.
Defined.

(* ------------------------------------------------------------------ *)
(** ** The empty string *)

Lemma calcStrLen_nonneg (n : number) : 0 <= n -> 0 <= calcStrLen n.
Proof.
  intro H. unfold calcStrLen, Qdiv.
  apply Qmult_le_0_compat; [apply Qmult_le_0_compat|];
    [exact H | discriminate | discriminate].
Qed.

Lemma effectiveMax_nonneg (config : Config) (byteSize : number) :
  0 <= byteSize ->
  (forall mx, maxLength config = Some mx -> 0 <= mx) ->
  0 <= effectiveMax config byteSize.
Proof.
  intros Hn Hmx. unfold effectiveMax, Math_min.
  pose proof (calcStrLen_nonneg _ Hn) as Hc.
  destruct (maxLength config) as [mx|]; [|exact Hc].
  apply Q.min_glb; [apply Hmx; reflexivity | exact Hc].
Qed.

(** Without a minimum, the empty string meets one check before the
    composition step: the maximum length, violated only by a negative
    bound. *)
Lemma validate_empty_no_minimum (config : Config) (byteSize : number) :
  minLength config = None ->
  outcome_of (validate [] config byteSize)
  = if Js.gt 0 (effectiveMax config byteSize)
    then Fails StringTooLong
    else Fails InvalidCharacter.
Proof.
  intro Hmin. rewrite validate_checks.
  unfold Spec.ordered_checks, Spec.length_checks. rewrite Hmin.
  cbn [app Spec.first_violation].
  change (Js.length []) with 0.
  destruct (Js.gt 0 (effectiveMax config byteSize)); reflexivity.
Qed.

(** C7: with no minimum length, the empty string fails with
    InvalidCharacter (byte size and maximum length being non-negative, as
    the data model has them): no length check rejects it, and none of the
    four composition patterns matches the empty string. *)
Theorem validate_empty_without_minimum :
  forall (config : Config) (byteSize : number),
    minLength config = None ->
    0 <= byteSize ->
    (forall mx, maxLength config = Some mx -> 0 <= mx) ->
    outcome_of (validate [] config byteSize) = Fails InvalidCharacter
    /\ Spec.first_violation
         (Spec.length_checks (Js.length []) config byteSize) = Success
    /\ (forall ident, test (getPatternForIdentifier ident) [] = false).
Proof.
  intros config byteSize Hmin Hn Hmx.
  assert (Spec.first_violation
            (Spec.length_checks (Js.length []) config byteSize) = Success)
    as Hl.
  { unfold Spec.length_checks. rewrite Hmin. cbn [Spec.first_violation].
    assert (Js.gt (Js.length []) (effectiveMax config byteSize) = false)
      as ->; [|reflexivity].
    unfold Js.gt, Js.lt. apply negb_false_iff, Qle_bool_iff.
    now apply effectiveMax_nonneg. }
  split; [|split; [exact Hl|]].
  - rewrite validate_checks. unfold Spec.ordered_checks.
    rewrite first_violation_app, Hl. reflexivity.
  - intro ident. destruct ident; reflexivity.
Qed.

Lemma validate_empty_without_minimum_witness :
  outcome_of (validate []
                (mkConfig None (Some 5) AlphanumericHyphenUnderscore
                   (Some createAllowedDelimiterRules)) 16)
  = Fails InvalidCharacter.
Proof.
  apply (validate_empty_without_minimum
           (mkConfig None (Some 5) AlphanumericHyphenUnderscore
              (Some createAllowedDelimiterRules)) 16).
  - reflexivity.
  - discriminate.
  - intros mx H. injection H as <-. discriminate.
Defined.

(* ------------------------------------------------------------------ *)
(** ** Delimiter flags *)

Lemma only_pattern_spec (f : Spec.flag) (input : jsstring) :
  Spec.only_pattern f input = true ->
  forall g, Spec.forbidden_pattern g input = Spec.flag_eqb g f.
Proof.
  unfold Spec.only_pattern, Spec.all_flags. cbn [forallb].
  rewrite !andb_true_iff. intros (H1 & H2 & H3 & H4 & H5 & _) g.
  destruct g; now apply eqb_prop.
Qed.

(** C8: for each of the five delimiter flags and an input that contains
    the pattern of that flag and of no other, and that passes the
    configuration, length and composition checks: with the flag false
    [validate] fails with the flag's error, with the flag true it
    succeeds.  Scenario 4 is the instance ["-test-"]. *)
Theorem delimiter_flag_gates_its_pattern :
  forall (f : Spec.flag) (input : jsstring) (config : Config)
         (byteSize : number),
    Spec.first_violation
      (Spec.length_checks (Js.length input) config byteSize
       ++ Spec.composition_check input config) = Success ->
    Spec.only_pattern f input = true ->
    (Spec.allows (Spec.rules_in_force config) f = false ->
     outcome_of (validate input config byteSize) = Fails (Spec.flag_error f))
    /\ (Spec.allows (Spec.rules_in_force config) f = true ->
        outcome_of (validate input config byteSize) = Success).
Proof.
  intros f input config byteSize Hpre Honly.
  pose proof (only_pattern_spec _ _ Honly) as Hg.
  rewrite validate_checks. unfold Spec.ordered_checks.
  rewrite app_assoc, first_violation_app, Hpre.
  unfold Spec.delimiter_checks, Spec.all_flags.
  cbn [List.map Spec.first_violation]. rewrite !Hg.
  destruct (Spec.rules_in_force config) as [a b c d e].
  destruct f; cbn [Spec.allows Spec.flag_eqb Spec.flag_error
                   allowLeadingTrailingHyphens allowLeadingTrailingUnderscores
                   allowConsecutiveHyphens allowConsecutiveUnderscores
                   allowAdjacentHyphenUnderscore];
    rewrite ?andb_false_r; split; intros ->; reflexivity.
Qed.

Lemma delimiter_flag_gates_its_pattern_witness :
  outcome_of
    (validate (str "-test-")
       (mkConfig (Some 3) None AlphanumericHyphen
          (Some (mkDelimiterRules false false false false false))) 16)
  = Fails LeadingTrailingHyphen
  /\ outcome_of
       (validate (str "-test-")
          (mkConfig (Some 3) None AlphanumericHyphen
             (Some (mkDelimiterRules true false false false false))) 16)
     = Success.
Proof.
  split.
  - apply (delimiter_flag_gates_its_pattern Spec.LeadingTrailingHyphens
             (str "-test-")
             (mkConfig (Some 3) None AlphanumericHyphen
                (Some (mkDelimiterRules false false false false false)))
             16); reflexivity.
  - apply (delimiter_flag_gates_its_pattern Spec.LeadingTrailingHyphens
             (str "-test-")
             (mkConfig (Some 3) None AlphanumericHyphen
                (Some (mkDelimiterRules true false false false false)))
             16); reflexivity.
Defined.

(* ------------------------------------------------------------------ *)
(** ** Constructing a configuration *)

Lemma new_outcome (mn mx : option number) (ident : IdentifierComposition)
    (delim : option DelimiterRules) :
  ConfigClass.new mn mx ident delim
  = match mn, mx with
    | Some a, Some b =>
        if Js.gt a b
        then Throw (Error
               [Lit "Minimum length cannot be greater than maximum length"])
        else Normal (mkConfig mn mx ident delim)
    | _, _ => Normal (mkConfig mn mx ident delim)
    end.
Proof.
  unfold ConfigClass.new, ConfigClass.validate; cbn [minLength maxLength].
  destruct mn as [a|], mx as [b|]; try reflexivity.
  destruct (Js.gt a b); reflexivity.
Qed.

Lemma new_fails_iff (mn mx : option number) (ident : IdentifierComposition)
    (delim : option DelimiterRules) :
  outcome_of (ConfigClass.new mn mx ident delim) = FailsPlain
  <-> exists a b, mn = Some a /\ mx = Some b /\ b < a.
Proof.
  rewrite new_outcome. split.
  - destruct mn as [a|], mx as [b|]; try discriminate.
    destruct (Js.gt a b) eqn:E; [|discriminate].
    intros _. exists a, b. repeat split. now apply lt_iff.
  - intros (a & b & -> & -> & Hlt).
    apply lt_iff in Hlt. unfold Js.gt. rewrite Hlt. reflexivity.
Qed.

(** C9: constructing a configuration (the constructor, [Config.create],
    [createConfig]) fails exactly when the minimum and the maximum length
    it is built with are both present and the minimum is the greater; the
    failure is a plain [Error], never a [HexaUrlError], whereas
    [validate] only ever throws a [HexaUrlError] (InvalidConfig among its
    codes): the two are told apart by the caller. *)
Theorem config_construction_failure :
  (forall mn mx ident delim,
      (outcome_of (ConfigClass.new mn mx ident delim) = FailsPlain
       <-> exists a b, mn = Some a /\ mx = Some b /\ b < a)
      /\ (outcome_of (ConfigClass.new mn mx ident delim) <> FailsPlain
          <-> ConfigClass.new mn mx ident delim
              = Normal (mkConfig mn mx ident delim)))
  /\ (forall o,
        (outcome_of (ConfigClass.create o) = FailsPlain
         <-> exists b, nullish_null (opt_maxLength o) = Some b
                       /\ b < nullish (opt_minLength o) 3)
        /\ (forall code, outcome_of (ConfigClass.create o) <> Fails code)
        /\ createConfig o = ConfigClass.create o)
  /\ (forall input config byteSize,
        outcome_of (validate input config byteSize) <> FailsPlain)
  /\ outcome_of (validate (str "abc") (mkConfig (Some 30) None
                                         AlphanumericHyphen None) 16)
     = Fails InvalidConfig.
Proof.
  split; [|split; [|split; [apply validate_not_plain | reflexivity]]].
  - intros mn mx ident delim. split; [apply new_fails_iff|].
    rewrite new_outcome.
    destruct mn as [a|], mx as [b|];
      try (split; [reflexivity | discriminate]).
    destruct (Js.gt a b); split; try reflexivity; try discriminate.
    intro H. now contradiction H.
  - intro o. split; [|split; [|reflexivity]].
    + unfold ConfigClass.create, ConfigClass.DEFAULT_MIN_LENGTH.
      rewrite new_fails_iff. split.
      * intros (a & b & Ha & Hb & Hlt). injection Ha as <-.
        exists b. split; assumption.
      * intros (b & Hb & Hlt). eexists _, b. repeat split; eassumption.
    + intros code. unfold ConfigClass.create. rewrite new_outcome.
      destruct (nullish_null (opt_maxLength o)) as [b|]; [|discriminate].
      destruct (Js.gt _ b); discriminate.
Qed.

(** C10: [Config.create] (and [createConfig]) never yields a
    configuration without a minimum length: a [null] (or missing) option
    becomes 3.  [Config.minimal()] and the constructor called with [null]
    do yield one. *)
Theorem create_minLength_never_null :
  (forall (o : ConfigOptions) (c : Config),
      createConfig o = Normal c ->
      minLength c = Some (nullish (opt_minLength o) 3)
      /\ minLength c <> None
      /\ (opt_minLength o = Null -> minLength c = Some 3))
  /\ (exists c, Config_minimal = Normal c /\ minLength c = None)
  /\ (forall mx ident delim,
        ConfigClass.new None mx ident delim
        = Normal (mkConfig None mx ident delim)).
Proof.
  split; [|split].
  - intros o c H. unfold createConfig, ConfigClass.create in H.
    rewrite new_outcome in H.
    assert (minLength c
            = Some (nullish (opt_minLength o) ConfigClass.DEFAULT_MIN_LENGTH))
      as E.
    { destruct (nullish_null (opt_maxLength o)) as [b|].
      - destruct (Js.gt _ b); [discriminate|]. now injection H as <-.
      - now injection H as <-. }
    split; [exact E|]. split; [rewrite E; discriminate|].
    intro Hn. rewrite E, Hn. reflexivity.
  - eexists. split; reflexivity.
  - intros mx ident delim. now rewrite new_outcome.
Qed.

Lemma create_minLength_never_null_witness :
  minLength (mkConfig (Some 3) None AlphanumericHyphen None) = Some 3.
Proof.
  apply (proj1 create_minLength_never_null
           (mkConfigOptions Null Undefined None Undefined)
           (mkConfig (Some 3) None AlphanumericHyphen None)
           eq_refl);
    reflexivity.
Defined.

(* ------------------------------------------------------------------ *)
(** ** How length is measured *)

Lemma length_encode (cs : list N) :
  List.length (Utf16.encode cs)
  = (List.length cs + List.length (filter Utf16.is_astral cs))%nat.
Proof.
  induction cs as [|c cs IH]; [reflexivity|].
  unfold Utf16.encode in *. cbn [flat_map filter].
  rewrite length_app, IH. unfold Utf16.encode1.
  destruct (Utf16.is_astral c); cbn [List.length]; lia.
Qed.

Lemma scalar_count_cons (u : code_unit) (t : jsstring) :
  Utf16.is_high_surrogate u = false ->
  Utf16.scalar_count (u :: t) = S (Utf16.scalar_count t).
Proof.
  intro H. destruct t as [|v t']; [reflexivity|].
  cbn [Utf16.scalar_count]. rewrite H. reflexivity.
Qed.

Lemma scalar_count_pair (h l : code_unit) (t : jsstring) :
  Utf16.is_high_surrogate h = true -> Utf16.is_low_surrogate l = true ->
  Utf16.scalar_count (h :: l :: t) = S (Utf16.scalar_count t).
Proof.
  intros Hh Hl.
  change (Utf16.scalar_count (h :: l :: t))
    with (if Utf16.is_high_surrogate h && Utf16.is_low_surrogate l
          then S (Utf16.scalar_count t)
          else S (Utf16.scalar_count (l :: t))).
  rewrite Hh, Hl. reflexivity.
Qed.

Lemma surrogate_pair (c : N) :
  Utf16.is_scalar c = true -> Utf16.is_astral c = true ->
  Utf16.is_high_surrogate (55296 + (c - 65536) / 1024)%N = true
  /\ Utf16.is_low_surrogate (56320 + (c - 65536) mod 1024)%N = true.
Proof.
  unfold Utf16.is_scalar, Utf16.is_astral, Utf16.is_high_surrogate,
    Utf16.is_low_surrogate, in_range.
  rewrite andb_true_iff, !N.leb_le. intros [Hc _] Ha.
  assert ((c - 65536) / 1024 < 1024)%N as Hq
    by (apply N.Div0.div_lt_upper_bound; lia).
  assert ((c - 65536) mod 1024 < 1024)%N as Hr
    by (apply N.mod_upper_bound; discriminate).
  rewrite !andb_true_iff, !N.leb_le.
  revert Hq Hr.
  generalize ((c - 65536) / 1024)%N, ((c - 65536) mod 1024)%N.
  intros q r Hq Hr. lia.
Qed.

Lemma scalar_count_encode (cs : list N) :
  forallb Utf16.is_scalar cs = true ->
  Utf16.scalar_count (Utf16.encode cs) = List.length cs.
Proof.
  induction cs as [|c cs IH]; [reflexivity|].
  cbn [forallb]. rewrite andb_true_iff. intros [Hc Hcs].
  specialize (IH Hcs).
  unfold Utf16.encode in *. cbn [flat_map List.length].
  unfold Utf16.encode1. destruct (Utf16.is_astral c) eqn:Ea.
  - destruct (surrogate_pair c Hc Ea) as [Hh Hl].
    cbn [app]. rewrite (scalar_count_pair _ _ _ Hh Hl).
    f_equal. exact IH.
  - cbn [app]. rewrite scalar_count_cons; [f_equal; exact IH|].
    revert Hc Ea.
    unfold Utf16.is_scalar, Utf16.is_astral, Utf16.is_high_surrogate,
      in_range.
    rewrite andb_true_iff, negb_true_iff, andb_false_iff, !N.leb_gt,
      N.leb_le.
    intros [_ [H|H]] _; apply andb_false_iff; rewrite !N.leb_gt; lia.
Qed.

Lemma length_encode_le_utf8 (cs : list N) :
  (List.length (Utf16.encode cs) <= Utf16.utf8_length cs)%nat.
Proof.
  induction cs as [|c cs IH]; [apply Nat.le_refl|].
  unfold Utf16.encode, Utf16.utf8_length in *.
  cbn [flat_map List.map list_sum]. rewrite length_app.
  apply Nat.add_le_mono; [|exact IH].
  unfold Utf16.encode1, Utf16.utf8_length1, Utf16.is_astral.
  destruct (N.leb 65536 c) eqn:Ea; cbn [List.length].
  - apply N.leb_le in Ea.
    assert (N.leb c 127 = false) as -> by (apply N.leb_gt; lia).
    assert (N.leb c 2047 = false) as -> by (apply N.leb_gt; lia).
    assert (N.leb c 65535 = false) as -> by (apply N.leb_gt; lia).
    lia.
  - destruct (N.leb c 127); [lia|].
    destruct (N.leb c 2047); [lia|].
    destruct (N.leb c 65535); lia.
Qed.

(** One code unit, two bytes: U+00E9. *)
Lemma code_units_are_not_bytes :
  List.length (Utf16.encode [233%N]) = 1%nat
  /\ Utf16.utf8_length [233%N] = 2%nat.
Proof. split; reflexivity. Qed.

Lemma allowed_is_ascii (ident : IdentifierComposition) (c : code_unit) :
  Spec.allowed ident c = true -> N.leb c 127 = true.
Proof.
  unfold Spec.allowed, alphanumeric, in_range, hyphen, underscore.
  intro H. apply N.leb_le.
  destruct ident;
    repeat (apply orb_prop in H as [H|H]);
    try (apply andb_prop in H as [_ H]; apply N.leb_le in H; lia);
    apply N.eqb_eq in H; subst; lia.
Qed.

Lemma non_ascii_is_disallowed (ident : IdentifierComposition)
    (s : jsstring) :
  Spec.ascii_only s = false -> Spec.has_disallowed ident s = true.
Proof.
  unfold Spec.ascii_only, Spec.has_disallowed.
  induction s as [|c s IH]; cbn [forallb existsb]; [discriminate|].
  intro H. apply andb_false_iff in H as [H|H].
  - destruct (Spec.allowed ident c) eqn:E; [|reflexivity].
    apply allowed_is_ascii in E. congruence.
  - rewrite (IH H). apply orb_true_r.
Qed.

(** C6, as stated, fails: two foxes are two Unicode scalar values but
    four UTF-16 code units.  Measured by scalar values the input would
    be too short for the default minimum 3; [validate] measures 4, lets
    it through both length steps and rejects it at the composition
    step. *)
Lemma length_in_scalar_values_fails :
  Utf16.scalar_count (Utf16.encode [Utf16.fox; Utf16.fox]) = 2%nat
  /\ List.length (Utf16.encode [Utf16.fox; Utf16.fox]) = 4%nat
  /\ Spec.first_violation
       (Spec.ordered_checks
          (Spec.scalar_length (Utf16.encode [Utf16.fox; Utf16.fox]))
          (Utf16.encode [Utf16.fox; Utf16.fox]) default_config 16)
     = Fails StringTooShort
  /\ outcome_of (validate (Utf16.encode [Utf16.fox; Utf16.fox])
                   default_config 16)
     = Fails InvalidCharacter.
Proof. repeat split. Qed.

(** C6, amended: in [validate] and [isEncodingSafe], string length is
    the number of UTF-16 code units, not bytes and not scalar values: a
    string holding the scalar values [cs] has one unit per value plus one
    more for each value above U+FFFF, which is the scalar count only when
    there is none.  An input with a non-ASCII code unit is measured so at
    the length steps and, when it passes them, rejected at the
    composition step. *)
Theorem length_in_code_units :
  forall (input : jsstring) (config : Config) (byteSize : number),
    outcome_of (validate input config byteSize)
    = Spec.first_violation
        (Spec.ordered_checks (Js.length input) input config byteSize)
    /\ isEncodingSafe input byteSize
       = Js.le (Js.length input) (calcStrLen byteSize)
         && Spec.ascii_only input
    /\ (Spec.ascii_only input = false ->
        Spec.first_violation
          (Spec.length_checks (Js.length input) config byteSize) = Success ->
        outcome_of (validate input config byteSize) = Fails InvalidCharacter)
    /\ (forall cs,
          input = Utf16.encode cs ->
          forallb Utf16.is_scalar cs = true ->
          List.length input
          = (List.length cs
             + List.length (filter Utf16.is_astral cs))%nat
          /\ Utf16.scalar_count input = List.length cs
          /\ (List.length input <= Utf16.utf8_length cs)%nat).
Proof.
  intros input config byteSize.
  split; [apply validate_checks|].
  split; [unfold isEncodingSafe; now rewrite test_ascii|].
  split.
  - intros Ha Hl. rewrite validate_checks. unfold Spec.ordered_checks.
    rewrite first_violation_app, Hl, first_violation_app.
    unfold Spec.composition_check.
    rewrite (non_ascii_is_disallowed (identifier config) _ Ha), orb_true_r.
    reflexivity.
  - intros cs -> Hcs. split; [|split].
    + apply length_encode.
    + now apply scalar_count_encode.
    + apply length_encode_le_utf8.
Qed.

Lemma length_in_code_units_witness :
  outcome_of (validate (Utf16.encode [Utf16.fox; Utf16.fox])
                default_config 16) = Fails InvalidCharacter
  /\ List.length (Utf16.encode [Utf16.fox; Utf16.fox]) = (2 + 2)%nat.
Proof.
  pose proof (length_in_code_units (Utf16.encode [Utf16.fox; Utf16.fox])
                default_config 16) as (_ & _ & H3 & H4).
  split.
  - apply H3; reflexivity.
  - apply (H4 [Utf16.fox; Utf16.fox]); reflexivity.
Defined.

(* ------------------------------------------------------------------ *)
(** ** The earlier revision *)

(** [validateWithConfig] checked the minimum length before anything else
    and never reported InvalidConfig. *)
Lemma legacy_no_config_check :
  outcome_of (Legacy.validateWithConfig (str "abc")
                (mkConfig (Some 30) None AlphanumericHyphen None) 16)
  = Fails StringTooShort.
Proof. reflexivity. Qed.

(** It skipped the delimiter checks for a configuration without rules. *)
Lemma legacy_skips_delimiters :
  outcome_of (Legacy.validate (str "too--many-hyphens") 16) = Success.
Proof. reflexivity. Qed.

(* ------------------------------------------------------------------ *)
(** ** The scenarios of the test suite *)

Lemma scenario_valid :
  outcome_of (validate_defaults (str "abc123")) = Success
  /\ outcome_of (validate_defaults (str "hello-world")) = Success.
Proof. split; reflexivity. Qed.

Lemma scenario_empty :
  outcome_of (validate_defaults (str "")) = Fails StringTooShort.
Proof. reflexivity. Qed.

Lemma scenario_byte_size :
  outcome_of (validate (str "aaaaaaaaaaa") default_config 8)
  = Fails StringTooLong
  /\ outcome_of (validate (str "aaaaaaaaaa") default_config 8) = Success.
Proof. split; reflexivity. Qed.

Lemma scenario_encoding_safe :
  isEncodingSafe (Utf16.encode [Utf16.fox]) 16 = false
  /\ isEncodingSafe (str "hello") 16 = true.
Proof. split; reflexivity. Qed.

(* ------------------------------------------------------------------ *)
(** * Further properties of the engine *)

(** ** The string primitives, by decomposition *)

Lemma startsWith_iff (s p : jsstring) :
  startsWith s p = true <-> exists r, s = p ++ r.
Proof.
  revert s. induction p as [|c p IH]; intro s.
  - destruct s; (split; [intros _; eexists; reflexivity | reflexivity]).
  - destruct s as [|d s]; cbn [startsWith].
    + split; [discriminate | intros [r H]; discriminate].
    + rewrite andb_true_iff, N.eqb_eq, IH. split.
      * intros [-> [r ->]]. exists r. reflexivity.
      * intros [r H]. injection H as -> ->. split; [reflexivity|].
        exists r. reflexivity.
Qed.

Lemma endsWith_iff (s p : jsstring) :
  endsWith s p = true <-> exists l, s = l ++ p.
Proof.
  unfold endsWith. rewrite startsWith_iff. split.
  - intros [r H]. exists (rev r).
    rewrite <- (rev_involutive s), H, rev_app_distr, rev_involutive.
    reflexivity.
  - intros [l ->]. exists (rev l). apply rev_app_distr.
Qed.

Lemma includes_iff (s p : jsstring) :
  includes s p = true <-> exists l r, s = l ++ p ++ r.
Proof.
  induction s as [|d s IH].
  - cbn [includes]. rewrite orb_false_r, startsWith_iff. split.
    + intros [r H]. exists [], r. exact H.
    + intros (l & r & H). destruct l; [exists r; exact H | discriminate].
  - cbn [includes]. rewrite orb_true_iff, startsWith_iff, IH. split.
    + intros [[r H] | (l & r & H)].
      * exists [], r. exact H.
      * exists (d :: l), r. now rewrite H.
    + intros (l & r & H). destruct l as [|d' l].
      * left. exists r. exact H.
      * right. injection H as _ H. exists l, r. exact H.
Qed.

(** ** When [validate] returns *)

Lemma lt_false_iff (x y : number) : Js.lt x y = false <-> y <= x.
Proof.
  unfold Js.lt. rewrite negb_false_iff. apply Qle_bool_iff.
Qed.

Lemma first_violation_app_success (l1 l2 : list (bool * HexaUrlErrorCode)) :
  Spec.first_violation (l1 ++ l2) = Success
  <-> Spec.first_violation l1 = Success
      /\ Spec.first_violation l2 = Success.
Proof.
  rewrite first_violation_app.
  destruct (Spec.first_violation l1); split;
    try (intros [H _]; discriminate); try discriminate; tauto.
Qed.

Lemma first_violation_map_success {A} (g : A -> bool)
    (e : A -> HexaUrlErrorCode) (l : list A) :
  Spec.first_violation (List.map (fun a => (g a, e a)) l) = Success
  <-> forall a, In a l -> g a = false.
Proof.
  induction l as [|a l IH]; cbn [List.map Spec.first_violation].
  - split; [intros _ a [] | reflexivity].
  - destruct (g a) eqn:E.
    + split; [discriminate|]. intro H.
      specialize (H a (or_introl eq_refl)). congruence.
    + rewrite IH. split.
      * intros H b [<-|Hb]; [exact E | now apply H].
      * intros H b Hb. apply H. now right.
Qed.

Lemma all_flags_complete (f : Spec.flag) : In f Spec.all_flags.
Proof. destruct f; cbn; tauto. Qed.

Lemma validateDelimiters_success (input : jsstring) (rules : DelimiterRules) :
  outcome_of (validateDelimiters input rules) = Success
  <-> forall f, Spec.allows rules f = false ->
                Spec.forbidden_pattern f input = false.
Proof.
  rewrite validateDelimiters_checks. unfold Spec.delimiter_checks.
  rewrite (first_violation_map_success
             (fun f => negb (Spec.allows rules f)
                       && Spec.forbidden_pattern f input)
             Spec.flag_error).
  split.
  - intros H f Hf. specialize (H f (all_flags_complete f)).
    rewrite Hf in H. exact H.
  - intros H f _. destruct (Spec.allows rules f) eqn:E; [reflexivity|].
    now apply H.
Qed.

Lemma composition_success (input : jsstring) (config : Config) :
  Spec.first_violation (Spec.composition_check input config) = Success
  <-> input <> []
      /\ forallb (Spec.allowed (identifier config)) input = true.
Proof.
  unfold Spec.composition_check, Spec.has_disallowed.
  cbn [Spec.first_violation].
  rewrite forallb_existsb_negb.
  destruct input as [|c input].
  - cbn. split; [discriminate | intros [H _]; now contradiction H].
  - cbn [orb].
    destruct (existsb _ (c :: input)); cbn; split;
      try discriminate; try (intros [_ H]; discriminate);
      intros _; (split; [discriminate | reflexivity]) || reflexivity.
Qed.

Lemma length_checks_success (len : number) (config : Config)
    (byteSize : number) :
  Spec.first_violation (Spec.length_checks len config byteSize) = Success
  <-> (forall mn, minLength config = Some mn ->
                  mn <= effectiveMax config byteSize /\ mn <= len)
      /\ len <= effectiveMax config byteSize.
Proof.
  unfold Spec.length_checks. cbn [Spec.first_violation]. unfold Js.gt.
  destruct (minLength config) as [mn|].
  - destruct (Js.lt (effectiveMax config byteSize) mn) eqn:E1;
      [|destruct (Js.lt len mn) eqn:E2;
        [|destruct (Js.lt (effectiveMax config byteSize) len) eqn:E3]].
    + apply lt_iff in E1. split; [discriminate|].
      intros [H _]. destruct (H mn eq_refl) as [H1 _].
      exfalso. exact (Qlt_not_le _ _ E1 H1).
    + apply lt_iff in E2. split; [discriminate|].
      intros [H _]. destruct (H mn eq_refl) as [_ H2].
      exfalso. exact (Qlt_not_le _ _ E2 H2).
    + apply lt_iff in E3. split; [discriminate|].
      intros [_ H]. exfalso. exact (Qlt_not_le _ _ E3 H).
    + apply lt_false_iff in E1, E2, E3. split; [intros _|reflexivity].
      split; [|exact E3]. intros mn' H. injection H as <-. now split.
  - destruct (Js.lt (effectiveMax config byteSize) len) eqn:E3.
    + apply lt_iff in E3. split; [discriminate|].
      intros [_ H]. exfalso. exact (Qlt_not_le _ _ E3 H).
    + apply lt_false_iff in E3. split; [intros _|reflexivity].
      split; [discriminate | exact E3].
Qed.

Lemma validate_success (input : jsstring) (config : Config)
    (byteSize : number) :
  outcome_of (validate input config byteSize) = Success
  <-> ((forall mn, minLength config = Some mn ->
                   mn <= effectiveMax config byteSize
                   /\ mn <= Js.length input)
       /\ Js.length input <= effectiveMax config byteSize)
      /\ (input <> []
          /\ forallb (Spec.allowed (identifier config)) input = true)
      /\ forall f, Spec.allows (Spec.rules_in_force config) f = false ->
                   Spec.forbidden_pattern f input = false.
Proof.
  rewrite validate_checks. unfold Spec.ordered_checks.
  rewrite !first_violation_app_success.
  rewrite length_checks_success, composition_success.
  rewrite <- validateDelimiters_checks, validateDelimiters_success.
  reflexivity.
Qed.

Lemma effectiveMax_le_calcStrLen (config : Config) (byteSize : number) :
  effectiveMax config byteSize <= calcStrLen byteSize.
Proof.
  unfold effectiveMax, Math_min.
  destruct (maxLength config); [apply Q.le_min_r | apply Qle_refl].
Qed.

Lemma calcStrLen_monotone (n m : number) :
  n <= m -> calcStrLen n <= calcStrLen m.
Proof.
  intro H. unfold calcStrLen, Qdiv.
  apply Qmult_le_compat_r; [|discriminate].
  apply Qmult_le_compat_r; [exact H | discriminate].
Qed.

Lemma effectiveMax_monotone (config : Config) (n m : number) :
  n <= m -> effectiveMax config n <= effectiveMax config m.
Proof.
  intro H. apply calcStrLen_monotone in H. unfold effectiveMax, Math_min.
  destruct (maxLength config); [now apply Q.min_le_compat_l | exact H].
Qed.

Lemma allowed_forallb_ascii (ident : IdentifierComposition) (s : jsstring) :
  forallb (Spec.allowed ident) s = true -> Spec.ascii_only s = true.
Proof.
  unfold Spec.ascii_only.
  induction s as [|c s IH]; cbn [forallb]; [reflexivity|].
  rewrite !andb_true_iff. intros [Hc Hs].
  split; [now apply (allowed_is_ascii ident) | now apply IH].
Qed.

(** ** What an accepted string looks like *)

(** X1: a string that [validate] accepts, under any configuration, passes
    [isEncodingSafe] for the same byte size. *)
Theorem validate_success_is_encoding_safe :
  forall (input : jsstring) (config : Config) (byteSize : number),
    outcome_of (validate input config byteSize) = Success ->
    isEncodingSafe input byteSize = true.
Proof.
  intros input config byteSize H.
  apply validate_success in H as ((_ & Hlen) & (_ & Hall) & _).
  unfold isEncodingSafe. rewrite test_ascii. apply andb_true_intro. split.
  - apply le_iff. eapply Qle_trans; [exact Hlen|].
    apply effectiveMax_le_calcStrLen.
  - exact (allowed_forallb_ascii _ _ Hall).
Qed.

Lemma validate_success_is_encoding_safe_witness :
  isEncodingSafe (str "abc-123") 16 = true.
Proof.
  apply (validate_success_is_encoding_safe (str "abc-123") default_config 16).
  reflexivity.
Defined.

Lemma allowed_cases (ident : IdentifierComposition) (c : code_unit) :
  Spec.allowed ident c = true ->
  alphanumeric c = true \/ c = hyphen \/ c = underscore.
Proof.
  destruct ident; cbn [Spec.allowed]; rewrite ?orb_true_iff, ?N.eqb_eq;
    tauto.
Qed.

(** X2: a string accepted for an integer byte size [n] is not empty, has
    at most floor(n*4/3) code units, each a letter, a digit, a hyphen or
    an underscore, and respects the configured minimum and maximum. *)
Theorem validate_success_shape :
  forall (input : jsstring) (config : Config) (n : Z),
    outcome_of (validate input config (inject_Z n)) = Success ->
    input <> []
    /\ (Z.of_nat (List.length input) <= Spec.lengthAccounting n)%Z
    /\ (forall c, In c input ->
                  alphanumeric c = true \/ c = hyphen \/ c = underscore)
    /\ (forall mn, minLength config = Some mn -> mn <= Js.length input)
    /\ (forall mx, maxLength config = Some mx -> Js.length input <= mx).
Proof.
  intros input config n H.
  apply validate_success in H as ((Hmin & Hlen) & (Hne & Hall) & _).
  split; [exact Hne|]. split; [|split; [|split]].
  - apply le_calcStrLen. eapply Qle_trans; [exact Hlen|].
    apply effectiveMax_le_calcStrLen.
  - intros c Hc. rewrite forallb_forall in Hall.
    exact (allowed_cases _ _ (Hall c Hc)).
  - intros mn Hmn. now destruct (Hmin mn Hmn).
  - intros mx Hmx. eapply Qle_trans; [exact Hlen|].
    unfold effectiveMax, Math_min. rewrite Hmx. apply Q.le_min_l.
Qed.

Lemma validate_success_shape_witness :
  (Z.of_nat (List.length (str "abc-123")) <= Spec.lengthAccounting 8)%Z.
Proof.
  apply (validate_success_shape (str "abc-123")
           (mkConfig (Some 5) (Some 9) AlphanumericHyphen None) 8).
  reflexivity.
Defined.

(** X3: a larger byte size never turns an acceptance into a rejection,
    for [validate] and for [isEncodingSafe]. *)
Theorem byteSize_monotone :
  forall (input : jsstring) (config : Config) (n m : number),
    n <= m ->
    (outcome_of (validate input config n) = Success ->
     outcome_of (validate input config m) = Success)
    /\ (isEncodingSafe input n = true -> isEncodingSafe input m = true).
Proof.
  intros input config n m Hnm. split.
  - rewrite !validate_success.
    intros ((Hmin & Hlen) & Hc & Hd).
    pose proof (effectiveMax_monotone config n m Hnm) as Hmono.
    split; [split|split; assumption].
    + intros mn Hmn. destruct (Hmin mn Hmn) as [H1 H2].
      split; [exact (Qle_trans _ _ _ H1 Hmono) | exact H2].
    + exact (Qle_trans _ _ _ Hlen Hmono).
  - unfold isEncodingSafe. rewrite !andb_true_iff, !le_iff.
    intros [Hl Ha]. split; [|exact Ha].
    eapply Qle_trans; [exact Hl|]. now apply calcStrLen_monotone.
Qed.

Lemma byteSize_monotone_witness :
  outcome_of (validate (str "abc-123") default_config 32) = Success
  /\ isEncodingSafe (str "abc-123") 32 = true.
Proof.
  destruct (byteSize_monotone (str "abc-123") default_config 8 32)
    as [Hv He]; [discriminate|].
  split; [apply Hv | apply He]; reflexivity.
Defined.

(** X4: relaxing delimiter rules never turns an acceptance into a
    rejection: if a configuration accepts an input, so does any
    configuration that differs only in allowing more delimiter
    patterns (no rules counting as all flags false). *)
Theorem delimiter_rules_monotone :
  forall (input : jsstring) (config config' : Config) (byteSize : number),
    minLength config' = minLength config ->
    maxLength config' = maxLength config ->
    identifier config' = identifier config ->
    (forall f, Spec.allows (Spec.rules_in_force config) f = true ->
               Spec.allows (Spec.rules_in_force config') f = true) ->
    outcome_of (validate input config byteSize) = Success ->
    outcome_of (validate input config' byteSize) = Success.
Proof.
  intros input config config' byteSize Hmin Hmax Hid Hrules.
  rewrite !validate_success.
  unfold effectiveMax. rewrite Hmin, Hmax, Hid.
  intros (Hl & Hc & Hd). split; [exact Hl|]. split; [exact Hc|].
  intros f Hf. apply Hd.
  destruct (Spec.allows (Spec.rules_in_force config) f) eqn:E;
    [|reflexivity].
  rewrite (Hrules f E) in Hf. discriminate.
Qed.

Lemma delimiter_rules_monotone_witness :
  outcome_of
    (validate (str "abc-123")
       (mkConfig (Some 3) None AlphanumericHyphen
          (Some createAllowedDelimiterRules)) 16) = Success.
Proof.
  apply (delimiter_rules_monotone (str "abc-123") default_config
           (mkConfig (Some 3) None AlphanumericHyphen
              (Some createAllowedDelimiterRules)) 16);
    try reflexivity.
  intros f H. destruct f; discriminate H.
Defined.

(** X5: [validate] never accepts the empty string, whatever the
    configuration and the byte size; [isEncodingSafe] accepts it for
    every non-negative byte size and only for those. *)
Theorem empty_string_behaviour :
  forall (config : Config) (byteSize : number),
    outcome_of (validate [] config byteSize) <> Success
    /\ (isEncodingSafe [] byteSize = true <-> 0 <= byteSize).
Proof.
  intros config byteSize. split.
  - rewrite validate_success. intros (_ & (Hne & _) & _). now apply Hne.
  - unfold isEncodingSafe. rewrite andb_true_iff, le_iff.
    change (Js.length []) with 0. split.
    + intros [H _]. unfold calcStrLen, Qdiv in H.
      destruct byteSize as [p q]. unfold Qle, Qmult, Qinv in *.
      cbn in *. lia.
    + intro H. split; [now apply calcStrLen_nonneg | reflexivity].
Qed.

(** ** Which error is reported *)

Lemma first_violation_in (l : list (bool * HexaUrlErrorCode))
    (code : HexaUrlErrorCode) :
  Spec.first_violation l = Fails code -> In (true, code) l.
Proof.
  intro H. apply first_violation_fails in H as (pre & post & -> & _).
  apply in_or_app. right. now left.
Qed.

Lemma first_violation_not_plain (l : list (bool * HexaUrlErrorCode)) :
  Spec.first_violation l <> FailsPlain.
Proof.
  induction l as [|[b c] l IH]; cbn; [discriminate|].
  destruct b; [discriminate | exact IH].
Qed.

(** X6: [validate] reports StringTooShort exactly when the minimum is
    within the effective maximum and the input is shorter than it, and
    StringTooLong exactly when the input exceeds an effective maximum
    that the minimum (if any) does not exceed; an input on the wrong side
    of a minimum above the effective maximum gets InvalidConfig. *)
Theorem length_errors_iff :
  forall (input : jsstring) (config : Config) (byteSize : number),
    (outcome_of (validate input config byteSize) = Fails InvalidConfig
     <-> exists mn, minLength config = Some mn
                    /\ effectiveMax config byteSize < mn)
    /\ (outcome_of (validate input config byteSize) = Fails StringTooShort
        <-> exists mn, minLength config = Some mn
                       /\ mn <= effectiveMax config byteSize
                       /\ Js.length input < mn)
    /\ (outcome_of (validate input config byteSize) = Fails StringTooLong
        <-> effectiveMax config byteSize < Js.length input
            /\ forall mn, minLength config = Some mn ->
                          mn <= effectiveMax config byteSize).
Proof.
  intros input config byteSize.
  rewrite validate_checks. unfold Spec.ordered_checks.
  rewrite first_violation_app.
  assert (forall code,
             (code = InvalidConfig \/ code = StringTooShort
              \/ code = StringTooLong) ->
             (match Spec.first_violation
                      (Spec.length_checks (Js.length input) config byteSize)
              with
              | Success =>
                  Spec.first_violation
                    (Spec.composition_check input config
                     ++ Spec.delimiter_checks input
                          (Spec.rules_in_force config))
              | o => o
              end = Fails code
              <-> Spec.first_violation
                    (Spec.length_checks (Js.length input) config byteSize)
                  = Fails code)) as Hpre.
  { intros code Hcode.
    destruct (Spec.first_violation
                (Spec.length_checks (Js.length input) config byteSize));
      try tauto.
    split; [|discriminate]. intro H. apply first_violation_in in H.
    cbn in H.
    destruct Hcode as [-> | [-> | ->]];
      repeat (destruct H as [H|H]; [discriminate H|]); contradiction. }
  rewrite !Hpre by tauto. clear Hpre.
  unfold Spec.length_checks. cbn [Spec.first_violation]. unfold Js.gt.
  destruct (minLength config) as [mn|].
  - destruct (Js.lt (effectiveMax config byteSize) mn) eqn:E1;
      [|destruct (Js.lt (Js.length input) mn) eqn:E2;
        [|destruct (Js.lt (effectiveMax config byteSize) (Js.length input))
            eqn:E3]];
      rewrite ?lt_iff, ?lt_false_iff in *.
    + split; [|split].
      * split; [intros _; now exists mn | reflexivity].
      * split; [discriminate|]. intros (mn' & H & Hle & _).
        injection H as <-. exfalso. exact (Qlt_not_le _ _ E1 Hle).
      * split; [discriminate|]. intros [_ H].
        exfalso. exact (Qlt_not_le _ _ E1 (H mn eq_refl)).
    + split; [|split].
      * split; [discriminate|]. intros (mn' & H & Hlt).
        injection H as <-. exfalso. exact (Qlt_not_le _ _ Hlt E1).
      * split; [intros _; now exists mn | reflexivity].
      * split; [discriminate|]. intros [Hlt _]. exfalso.
        apply (Qlt_irrefl (Js.length input)).
        eapply Qlt_le_trans; [exact E2|].
        eapply Qle_trans; [exact E1 | now apply Qlt_le_weak].
    + split; [|split].
      * split; [discriminate|]. intros (mn' & H & Hlt).
        injection H as <-. exfalso. exact (Qlt_not_le _ _ Hlt E1).
      * split; [discriminate|]. intros (mn' & H & _ & Hlt).
        injection H as <-. exfalso. exact (Qlt_not_le _ _ Hlt E2).
      * split; [intros _|reflexivity]. split; [exact E3|].
        intros mn' H. now injection H as <-.
    + split; [|split].
      * split; [discriminate|]. intros (mn' & H & Hlt).
        injection H as <-. exfalso. exact (Qlt_not_le _ _ Hlt E1).
      * split; [discriminate|]. intros (mn' & H & _ & Hlt).
        injection H as <-. exfalso. exact (Qlt_not_le _ _ Hlt E2).
      * split; [discriminate|]. intros [Hlt _].
        exfalso. exact (Qlt_not_le _ _ Hlt E3).
  - destruct (Js.lt (effectiveMax config byteSize) (Js.length input))
      eqn:E3; rewrite ?lt_iff, ?lt_false_iff in *.
    + split; [|split].
      * split; [discriminate | intros (mn & H & _); discriminate].
      * split; [discriminate | intros (mn & H & _); discriminate].
      * split; [intros _|reflexivity]. split; [exact E3 | discriminate].
    + split; [|split].
      * split; [discriminate | intros (mn & H & _); discriminate].
      * split; [discriminate | intros (mn & H & _); discriminate].
      * split; [discriminate|]. intros [Hlt _].
        exfalso. exact (Qlt_not_le _ _ Hlt E3).
Qed.

(** X7: [validate] never throws a plain [Error], and of the twelve codes
    it never reports BytesTooLong, BytesTooShort or InvalidLength. *)
Theorem validate_never_reserved_codes :
  forall (input : jsstring) (config : Config) (byteSize : number),
    outcome_of (validate input config byteSize) <> FailsPlain
    /\ outcome_of (validate input config byteSize) <> Fails BytesTooLong
    /\ outcome_of (validate input config byteSize) <> Fails BytesTooShort
    /\ outcome_of (validate input config byteSize) <> Fails InvalidLength.
Proof.
  intros input config byteSize. rewrite validate_checks.
  split; [apply first_violation_not_plain|].
  repeat split; intro H; apply first_violation_in in H;
    apply (in_map snd) in H;
    change (List.map snd
              (Spec.ordered_checks (Js.length input) input config byteSize))
      with [ InvalidConfig; StringTooShort; StringTooLong; InvalidCharacter;
             LeadingTrailingHyphen; LeadingTrailingUnderscore;
             ConsecutiveHyphens; ConsecutiveUnderscores;
             AdjacentHyphenUnderscore ] in H;
    cbn in H; repeat (destruct H as [H|H]; [discriminate H|]);
    contradiction.
Qed.

(** ** Delimiters and compositions *)

Lemma pattern_needs_delimiters (f : Spec.flag) (input : jsstring) :
  Spec.forbidden_pattern f input = true ->
  forall c, In c (flag_delimiters f) -> In c input.
Proof.
  destruct f; cbn [Spec.forbidden_pattern flag_delimiters];
    rewrite ?orb_true_iff, ?startsWith_iff, ?endsWith_iff, ?includes_iff;
    intros H c Hc;
    repeat match goal with
           | H : _ \/ _ |- _ => destruct H as [H|H]
           | H : exists _, _ |- _ => destruct H as [? H]
           | H : In _ (_ :: _) |- _ => destruct H as [<-|H]
           | H : In _ [] |- _ => destruct H
           end;
    subst input; rewrite ?in_app_iff; cbn [In app]; tauto.
Qed.

Lemma pattern_absent (f : Spec.flag) (ident : IdentifierComposition)
    (input : jsstring) (c : code_unit) :
  forallb (Spec.allowed ident) input = true ->
  In c (flag_delimiters f) -> Spec.allowed ident c = false ->
  Spec.forbidden_pattern f input = false.
Proof.
  intros Hall Hc Hno.
  destruct (Spec.forbidden_pattern f input) eqn:E; [|reflexivity].
  rewrite forallb_forall in Hall.
  rewrite (Hall c (pattern_needs_delimiters f input E c Hc)) in Hno.
  discriminate.
Qed.

Lemma first_violation_map_fails {A} (g : A -> bool)
    (e : A -> HexaUrlErrorCode) (l : list A) (code : HexaUrlErrorCode) :
  Spec.first_violation (List.map (fun a => (g a, e a)) l) = Fails code ->
  exists a, In a l /\ g a = true /\ e a = code.
Proof.
  induction l as [|a l IH]; cbn [List.map Spec.first_violation];
    [discriminate|].
  destruct (g a) eqn:E.
  - intro H. injection H as <-. exists a. repeat split; [now left | exact E].
  - intro H. destruct (IH H) as (b & Hb & Hg & He).
    exists b. repeat split; [now right | exact Hg | exact He].
Qed.

Lemma flag_error_injective (f g : Spec.flag) :
  Spec.flag_error f = Spec.flag_error g -> f = g.
Proof. destruct f, g; cbn; intro H; (reflexivity || discriminate H). Qed.

Lemma length_checks_codes (len : number) (config : Config)
    (byteSize : number) (code : HexaUrlErrorCode) :
  Spec.first_violation (Spec.length_checks len config byteSize) = Fails code ->
  code = InvalidConfig \/ code = StringTooShort \/ code = StringTooLong.
Proof.
  intro H. apply first_violation_in, (in_map snd) in H. cbn in H.
  destruct H as [H|[H|[H|[]]]]; auto.
Qed.

(** X8: a delimiter error is reported only for an input that contains
    the delimiters of the pattern, and only when the composition allows
    them: under Alphanumeric no delimiter error is ever reported, under
    AlphanumericHyphen none about underscores, under
    AlphanumericUnderscore none about hyphens. *)
Theorem delimiter_error_needs_allowed_delimiter :
  forall (input : jsstring) (config : Config) (byteSize : number)
         (f : Spec.flag),
    outcome_of (validate input config byteSize) = Fails (Spec.flag_error f) ->
    Spec.allows (Spec.rules_in_force config) f = false
    /\ forall c, In c (flag_delimiters f) ->
                 In c input /\ Spec.allowed (identifier config) c = true.
Proof.
  intros input config byteSize f.
  rewrite validate_checks. unfold Spec.ordered_checks.
  rewrite first_violation_app.
  destruct (Spec.first_violation
              (Spec.length_checks (Js.length input) config byteSize))
    eqn:El.
  - rewrite first_violation_app.
    destruct (Spec.first_violation (Spec.composition_check input config))
      eqn:Ec.
    + apply composition_success in Ec as [_ Hall].
      unfold Spec.delimiter_checks. intro H.
      apply (first_violation_map_fails
               (fun g => negb (Spec.allows (Spec.rules_in_force config) g)
                         && Spec.forbidden_pattern g input)
               Spec.flag_error) in H as (g & _ & Hg & He).
      apply flag_error_injective in He. subst g.
      apply andb_prop in Hg as [Hallow Hpat].
      split; [now apply negb_true_iff|].
      intros c Hc.
      pose proof (pattern_needs_delimiters f input Hpat c Hc) as Hin.
      split; [exact Hin|].
      rewrite forallb_forall in Hall. now apply Hall.
    + intro H. injection H as ->. apply first_violation_in in Ec.
      cbn in Ec. destruct Ec as [Ec|[]]. destruct f; discriminate Ec.
    + now destruct (first_violation_not_plain _ Ec).
  - intro H. injection H as ->. apply length_checks_codes in El.
    destruct f; cbn in El; destruct El as [El|[El|El]]; discriminate El.
  - now destruct (first_violation_not_plain _ El).
Qed.

Lemma delimiter_error_needs_allowed_delimiter_witness :
  In hyphen (str "too--many-hyphens")
  /\ Spec.allowed AlphanumericHyphen hyphen = true.
Proof.
  apply (delimiter_error_needs_allowed_delimiter (str "too--many-hyphens")
           default_config 16 Spec.ConsecutiveHyphensFlag).
  - reflexivity.
  - now left.
Defined.

(** X9: under the Alphanumeric composition the delimiter rules have no
    effect: two configurations that differ only in their rules give the
    same outcome on every input. *)
Theorem alphanumeric_ignores_delimiter_rules :
  forall (input : jsstring) (mn mx : option number)
         (d d' : option DelimiterRules) (byteSize : number),
    outcome_of (validate input (mkConfig mn mx Alphanumeric d) byteSize)
    = outcome_of (validate input (mkConfig mn mx Alphanumeric d') byteSize).
Proof.
  intros input mn mx d d' byteSize.
  assert (forall d0,
             outcome_of
               (validate input (mkConfig mn mx Alphanumeric d0) byteSize)
             = Spec.first_violation
                 (Spec.length_checks (Js.length input)
                    (mkConfig mn mx Alphanumeric None) byteSize
                  ++ Spec.composition_check input
                       (mkConfig mn mx Alphanumeric None))) as E.
  { intro d0. rewrite validate_checks. unfold Spec.ordered_checks.
    rewrite app_assoc, first_violation_app.
    change (Spec.length_checks (Js.length input)
              (mkConfig mn mx Alphanumeric d0) byteSize
            ++ Spec.composition_check input (mkConfig mn mx Alphanumeric d0))
      with (Spec.length_checks (Js.length input)
              (mkConfig mn mx Alphanumeric None) byteSize
            ++ Spec.composition_check input
                 (mkConfig mn mx Alphanumeric None)).
    destruct (Spec.first_violation
                (Spec.length_checks (Js.length input)
                   (mkConfig mn mx Alphanumeric None) byteSize
                 ++ Spec.composition_check input
                      (mkConfig mn mx Alphanumeric None))) eqn:Epre;
      try reflexivity.
    apply first_violation_app_success in Epre as [_ Hc].
    apply composition_success in Hc as [_ Hall]. cbn [identifier] in Hall.
    rewrite <- validateDelimiters_checks. apply validateDelimiters_success.
    intros f _.
    destruct f.
    - apply (pattern_absent _ Alphanumeric input hyphen Hall);
        [now left | reflexivity].
    - apply (pattern_absent _ Alphanumeric input underscore Hall);
        [now left | reflexivity].
    - apply (pattern_absent _ Alphanumeric input hyphen Hall);
        [now left | reflexivity].
    - apply (pattern_absent _ Alphanumeric input underscore Hall);
        [now left | reflexivity].
    - apply (pattern_absent _ Alphanumeric input hyphen Hall);
        [now left | reflexivity]. }
  now rewrite !E.
Qed.

Lemma is_delimiter_iff (c : code_unit) :
  is_delimiter c = true <-> c = hyphen \/ c = underscore.
Proof. unfold is_delimiter. now rewrite orb_true_iff, !N.eqb_eq. Qed.

(** X10: with all five flags false (the default rules),
    [validateDelimiters] returns exactly for the inputs that neither
    begin nor end with a delimiter and hold no two delimiters side by
    side. *)
Theorem strict_delimiters_iff :
  forall (input : jsstring),
    outcome_of (validateDelimiters input (createDelimiterRules no_rules))
    = Success
    <-> (forall d r, is_delimiter d = true -> input <> d :: r)
        /\ (forall l d, is_delimiter d = true -> input <> l ++ [d])
        /\ (forall l d1 d2 r,
              is_delimiter d1 = true -> is_delimiter d2 = true ->
              input <> l ++ d1 :: d2 :: r).
Proof.
  intro input. rewrite validateDelimiters_success. split.
  - intro H.
    assert (forall f, Spec.forbidden_pattern f input = false) as Hf
      by (intro f; apply H; destruct f; reflexivity).
    clear H. split; [|split].
    + intros d r Hd ->. apply is_delimiter_iff in Hd as [-> | ->].
      * specialize (Hf Spec.LeadingTrailingHyphens).
        cbn [Spec.forbidden_pattern] in Hf.
        apply orb_false_elim in Hf as [Hf _].
        assert (startsWith (hyphen :: r) [hyphen] = true)
          by (apply startsWith_iff; now exists r).
        congruence.
      * specialize (Hf Spec.LeadingTrailingUnderscores).
        cbn [Spec.forbidden_pattern] in Hf.
        apply orb_false_elim in Hf as [Hf _].
        assert (startsWith (underscore :: r) [underscore] = true)
          by (apply startsWith_iff; now exists r).
        congruence.
    + intros l d Hd ->. apply is_delimiter_iff in Hd as [-> | ->].
      * specialize (Hf Spec.LeadingTrailingHyphens).
        cbn [Spec.forbidden_pattern] in Hf.
        apply orb_false_elim in Hf as [_ Hf].
        assert (endsWith (l ++ [hyphen]) [hyphen] = true)
          by (apply endsWith_iff; now exists l).
        congruence.
      * specialize (Hf Spec.LeadingTrailingUnderscores).
        cbn [Spec.forbidden_pattern] in Hf.
        apply orb_false_elim in Hf as [_ Hf].
        assert (endsWith (l ++ [underscore]) [underscore] = true)
          by (apply endsWith_iff; now exists l).
        congruence.
    + intros l d1 d2 r Hd1 Hd2 ->.
      assert (includes (l ++ d1 :: d2 :: r) [d1; d2] = true) as Hinc
        by (apply includes_iff; now exists l, r).
      apply is_delimiter_iff in Hd1 as [-> | ->];
        apply is_delimiter_iff in Hd2 as [-> | ->].
      * specialize (Hf Spec.ConsecutiveHyphensFlag).
        cbn [Spec.forbidden_pattern] in Hf. congruence.
      * specialize (Hf Spec.AdjacentHyphenUnderscoreFlag).
        cbn [Spec.forbidden_pattern] in Hf.
        apply orb_false_elim in Hf as [Hf _]. congruence.
      * specialize (Hf Spec.AdjacentHyphenUnderscoreFlag).
        cbn [Spec.forbidden_pattern] in Hf.
        apply orb_false_elim in Hf as [_ Hf]. congruence.
      * specialize (Hf Spec.ConsecutiveUnderscoresFlag).
        cbn [Spec.forbidden_pattern] in Hf. congruence.
  - intros (Hhead & Hlast & Hpair) f _.
    assert (is_delimiter hyphen = true) as Hh by reflexivity.
    assert (is_delimiter underscore = true) as Hu by reflexivity.
    destruct (Spec.forbidden_pattern f input) eqn:E; [|reflexivity].
    exfalso.
    destruct f; cbn [Spec.forbidden_pattern] in E;
      rewrite ?orb_true_iff, ?startsWith_iff, ?endsWith_iff,
        ?includes_iff in E;
      repeat match goal with
             | H : _ \/ _ |- _ => destruct H as [H|H]
             | H : exists _, _ |- _ => destruct H as [? H]
             end;
      cbn [app] in E;
      first [ eapply Hhead; [|exact E]; assumption
            | eapply Hlast; [|exact E]; assumption
            | eapply Hpair; [| |exact E]; assumption ].
Qed.

(** ** Configurations built by the constructor *)

Lemma invalid_config_iff (input : jsstring) (config : Config)
    (byteSize : number) :
  outcome_of (validate input config byteSize) = Fails InvalidConfig
  <-> exists mn, minLength config = Some mn
                 /\ effectiveMax config byteSize < mn.
Proof.
  rewrite validate_checks. unfold Spec.ordered_checks, Spec.length_checks.
  cbn [app Spec.first_violation].
  assert (forall b : bool, (if b then Fails InvalidConfig
                     else Spec.first_violation
                            ((match minLength config with
                              | Some mn => Js.lt (Js.length input) mn
                              | None => false
                              end, StringTooShort)
                             :: (Js.gt (Js.length input)
                                   (effectiveMax config byteSize),
                                 StringTooLong)
                             :: Spec.composition_check input config
                             ++ Spec.delimiter_checks input
                                  (Spec.rules_in_force config)))
                    = Fails InvalidConfig <-> b = true) as Hb.
  { intros [|]; split; try reflexivity; try discriminate.
    intro H. apply first_violation_in, (in_map snd) in H. cbn in H.
    repeat (destruct H as [H|H]; [discriminate H|]). contradiction. }
  rewrite Hb. clear Hb.
  destruct (minLength config) as [mn|].
  - rewrite lt_iff. split.
    + intro H. now exists mn.
    + intros (mn' & H & Hlt). now injection H as <-.
  - split; [discriminate | intros (mn & H & _); discriminate].
Qed.

Lemma new_normal (mn mx : option number) (ident : IdentifierComposition)
    (delim : option DelimiterRules) (config : Config) :
  ConfigClass.new mn mx ident delim = Normal config ->
  config = mkConfig mn mx ident delim
  /\ forall a b, mn = Some a -> mx = Some b -> a <= b.
Proof.
  rewrite new_outcome.
  destruct mn as [a|], mx as [b|];
    try (intro H; injection H as <-; split; [reflexivity|];
         intros ? ? ? ?; discriminate).
  destruct (Js.gt a b) eqn:E; [discriminate|].
  intro H. injection H as <-. split; [reflexivity|].
  intros a' b' Ha Hb. injection Ha as <-. injection Hb as <-.
  now apply lt_false_iff.
Qed.

(** X11: for a configuration that the constructor returned, [validate]
    reports InvalidConfig exactly when the byte size alone cannot hold the
    minimum length; the configured maximum plays no part. *)
Theorem constructed_config_invalid_by_byte_size :
  forall (mn mx : option number) (ident : IdentifierComposition)
         (delim : option DelimiterRules) (config : Config)
         (input : jsstring) (byteSize : number),
    ConfigClass.new mn mx ident delim = Normal config ->
    (outcome_of (validate input config byteSize) = Fails InvalidConfig
     <-> exists a, minLength config = Some a /\ calcStrLen byteSize < a).
Proof.
  intros mn mx ident delim config input byteSize Hnew.
  apply new_normal in Hnew as [-> Hinv].
  rewrite invalid_config_iff. unfold effectiveMax, Math_min.
  cbn [minLength maxLength].
  split; intros (a & Ha & Hlt); exists a; (split; [exact Ha|]).
  - destruct mx as [b|]; [|exact Hlt].
    apply Q.min_lt_iff in Hlt as [Hlt|Hlt]; [|exact Hlt].
    exfalso. exact (Qlt_not_le _ _ Hlt (Hinv a b Ha eq_refl)).
  - destruct mx as [b|]; [|exact Hlt].
    apply Q.min_lt_iff. now right.
Qed.

Lemma constructed_config_invalid_by_byte_size_witness :
  outcome_of (validate (str "abcdefgh")
                (mkConfig (Some 8) (Some 12) AlphanumericHyphen None) 4)
  = Fails InvalidConfig.
Proof.
  apply (constructed_config_invalid_by_byte_size
           (Some 8) (Some 12) AlphanumericHyphen None
           (mkConfig (Some 8) (Some 12) AlphanumericHyphen None)
           (str "abcdefgh") 4 eq_refl).
  exists 8. split; reflexivity.
Defined.

(** X12: the configuration of [Config.minimal()] accepts exactly the
    non-empty strings of letters, digits, hyphens and underscores whose
    length the byte size holds. *)
Theorem minimal_config_accepts :
  forall (config : Config) (input : jsstring) (byteSize : number),
    Config_minimal = Normal config ->
    (outcome_of (validate input config byteSize) = Success
     <-> input <> []
         /\ (forall c, In c input ->
                       alphanumeric c = true \/ c = hyphen \/ c = underscore)
         /\ Js.length input <= calcStrLen byteSize).
Proof.
  intros config input byteSize H. injection H as <-.
  rewrite validate_success. cbn [minLength maxLength identifier].
  unfold effectiveMax. cbn [maxLength]. rewrite forallb_forall. split.
  - intros ((_ & Hlen) & (Hne & Hall) & _).
    split; [exact Hne|]. split; [|exact Hlen].
    intros c Hc. exact (allowed_cases _ _ (Hall c Hc)).
  - intros (Hne & Hall & Hlen). split; [split; [discriminate|exact Hlen]|].
    split; [split; [exact Hne|]|].
    + intros c Hc. cbn [Spec.allowed]. rewrite !orb_true_iff, !N.eqb_eq.
      destruct (Hall c Hc) as [H|[H|H]]; tauto.
    + intros f Hf. destruct f; discriminate Hf.
Qed.

Lemma minimal_config_accepts_witness :
  outcome_of (validate (str "_-")
                (mkConfig None None AlphanumericHyphenUnderscore
                   (Some createAllowedDelimiterRules)) 16) = Success.
Proof.
  apply (minimal_config_accepts
           (mkConfig None None AlphanumericHyphenUnderscore
              (Some createAllowedDelimiterRules)) (str "_-") 16 eq_refl).
  split; [discriminate|]. split; [|discriminate].
  intros c [<-|[<-|[]]]; auto.
Defined.

(** ** The earlier revision against the current one *)

Lemma legacy_checks (input : jsstring) (config : Config)
    (byteSize : number) :
  outcome_of (Legacy.validateWithConfig input config byteSize)
  = Spec.first_violation
      ((match minLength config with
        | Some mn => Js.lt (Js.length input) mn
        | None => false
        end, StringTooShort)
       :: (Js.gt (Js.length input) (effectiveMax config byteSize),
           StringTooLong)
       :: Spec.composition_check input config
       ++ match delimiter config with
          | Some rules => Spec.delimiter_checks input rules
          | None => []
          end).
Proof.
  unfold Legacy.validateWithConfig, Spec.composition_check.
  rewrite test_pattern, negb_involutive.
  cbn [app Spec.first_violation].
  destruct (minLength config) as [mn|]; cbn [if_not_null].
  - rewrite !outcome_when.
    destruct (delimiter config) as [rules|];
      [now rewrite validateDelimiters_checks | reflexivity].
  - cbn [bind]. rewrite !outcome_when.
    destruct (delimiter config) as [rules|];
      [now rewrite validateDelimiters_checks | reflexivity].
Qed.

(** X13: [validateWithConfig] never reports InvalidConfig; it accepts
    whatever [validate] accepts; and for a configuration with delimiter
    rules it has the outcome of [validate] whenever that is not
    InvalidConfig. *)
Theorem legacy_agrees_with_validate :
  forall (input : jsstring) (config : Config) (byteSize : number),
    outcome_of (Legacy.validateWithConfig input config byteSize)
    <> Fails InvalidConfig
    /\ (outcome_of (validate input config byteSize) = Success ->
        outcome_of (Legacy.validateWithConfig input config byteSize)
        = Success)
    /\ (delimiter config <> None ->
        outcome_of (validate input config byteSize) <> Fails InvalidConfig ->
        outcome_of (Legacy.validateWithConfig input config byteSize)
        = outcome_of (validate input config byteSize)).
Proof.
  intros input config byteSize.
  assert (delimiter config <> None ->
          outcome_of (validate input config byteSize) <> Fails InvalidConfig ->
          outcome_of (Legacy.validateWithConfig input config byteSize)
          = outcome_of (validate input config byteSize)) as Hsame.
  { intros Hd Hic. rewrite legacy_checks. revert Hic.
    rewrite validate_checks.
    unfold Spec.ordered_checks, Spec.length_checks, Spec.rules_in_force.
    destruct (delimiter config) as [rules|]; [|now contradiction Hd].
    cbn [app Spec.first_violation].
    destruct (match minLength config with
              | Some mn => Js.lt (effectiveMax config byteSize) mn
              | None => false
              end); [intro H; now contradiction H | reflexivity]. }
  split; [|split; [|exact Hsame]].
  - rewrite legacy_checks. intro H.
    apply first_violation_in, (in_map snd) in H.
    cbn [List.map snd] in H. destruct H as [H|[H|H]]; try discriminate H.
    rewrite map_app in H. apply in_app_or in H as [H|H].
    + cbn in H. destruct H as [H|[]]. discriminate H.
    + destruct (delimiter config); cbn in H;
        repeat (destruct H as [H|H]; [discriminate H|]); contradiction.
  - intro Hs. destruct (delimiter config) as [rules|] eqn:Ed.
    + rewrite Hsame; [exact Hs | discriminate | rewrite Hs; discriminate].
    + rewrite legacy_checks, Ed.
      rewrite validate_checks in Hs. unfold Spec.ordered_checks in Hs.
      apply first_violation_app_success in Hs as [Hl Hrest].
      apply first_violation_app_success in Hrest as [Hc _].
      unfold Spec.length_checks in Hl. cbn [Spec.first_violation] in Hl.
      cbn [Spec.first_violation]. rewrite app_nil_r.
      destruct (match minLength config with
                | Some mn => Js.lt (effectiveMax config byteSize) mn
                | None => false
                end); [discriminate|].
      destruct (match minLength config with
                | Some mn => Js.lt (Js.length input) mn
                | None => false
                end); [discriminate|].
      destruct (Js.gt (Js.length input) (effectiveMax config byteSize));
        [discriminate | exact Hc].
Qed.

Lemma legacy_agrees_with_validate_witness :
  outcome_of (Legacy.validateWithConfig (str "abc-123") default_config 16)
  = Success.
Proof.
  apply (proj1 (proj2 (legacy_agrees_with_validate
                         (str "abc-123") default_config 16))).
  reflexivity.
Defined.

(** X14: the two-argument [validate] of the earlier revision accepts
    exactly the strings of letters, digits and hyphens of length 3 up to
    what the byte size holds; where the hyphens stand does not matter. *)
Theorem legacy_validate_accepts :
  forall (input : jsstring) (byteSize : number),
    outcome_of (Legacy.validate input byteSize) = Success
    <-> 3 <= Js.length input
        /\ Js.length input <= calcStrLen byteSize
        /\ forall c, In c input -> alphanumeric c = true \/ c = hyphen.
Proof.
  intros input byteSize.
  change (Legacy.validate input byteSize)
    with (Legacy.validateWithConfig input default_config byteSize).
  rewrite legacy_checks. cbn [minLength delimiter default_config].
  rewrite app_nil_r.
  change ((Js.lt (Js.length input) 3, StringTooShort)
          :: (Js.gt (Js.length input) (effectiveMax default_config byteSize),
              StringTooLong)
          :: Spec.composition_check input default_config)
    with ([(Js.lt (Js.length input) 3, StringTooShort);
           (Js.gt (Js.length input) (calcStrLen byteSize), StringTooLong)]
          ++ Spec.composition_check input default_config).
  rewrite first_violation_app_success, composition_success.
  cbn [Spec.first_violation identifier default_config]. unfold Js.gt.
  rewrite forallb_forall.
  destruct (Js.lt (Js.length input) 3) eqn:E1;
    [|destruct (Js.lt (calcStrLen byteSize) (Js.length input)) eqn:E2];
    rewrite ?lt_iff, ?lt_false_iff in *.
  - split; [intros [H _]; discriminate|]. intros [H _].
    exfalso. exact (Qlt_not_le _ _ E1 H).
  - split; [intros [H _]; discriminate|]. intros (_ & H & _).
    exfalso. exact (Qlt_not_le _ _ E2 H).
  - split.
    + intros (_ & _ & Hall). split; [exact E1|]. split; [exact E2|].
      intros c Hc. specialize (Hall c Hc). cbn [Spec.allowed] in Hall.
      now rewrite orb_true_iff, N.eqb_eq in Hall.
    + intros (_ & _ & Hall). split; [reflexivity|]. split.
      * intros ->. revert E1. change (Js.length []) with 0.
        unfold Qle. cbn. lia.
      * intros c Hc. cbn [Spec.allowed]. rewrite orb_true_iff, N.eqb_eq.
        now apply Hall.
Qed.

(** ** The schema extension *)

(** X15: the refinement callback of [hexaurl] leaves the issues untouched
    exactly when [validate] accepts the value; otherwise it appends one
    issue, whose message is that of the thrown [HexaUrlError] followed by
    its numeric code; the unknown-error issue is never produced. *)
Theorem hexaurl_refinement_issues :
  forall (config : Config) (byteSize : number) (value : jsstring)
         (c : Zod.ctx),
    (Zod.hexaurl config byteSize value c = c
     <-> outcome_of (validate value config byteSize) = Success)
    /\ (forall code,
          outcome_of (validate value config byteSize) = Fails code ->
          exists msg,
            validate value config byteSize = Throw (HexaUrlError msg code)
            /\ Zod.hexaurl config byteSize value c
               = c ++ [Zod.mkIssue "custom"
                         (msg ++ [Lit " (code: "; Num (code_number code);
                                  Lit ")"])])
    /\ (forall i,
          In i (Zod.hexaurl config byteSize value c) ->
          In i c
          \/ Zod.issue_message i
             <> [Lit "Unknown error during HexaURL validation"]).
Proof.
  intros config byteSize value c.
  pose proof (validate_not_plain value config byteSize) as Hnp.
  assert (forall i : Zod.issue, c ++ [i] <> c) as Hneq.
  { intros i H. apply (f_equal (@List.length _)) in H.
    rewrite length_app in H. cbn in H. lia. }
  unfold Zod.hexaurl, Zod.addIssue.
  destruct (validate value config byteSize) as [[]|[msg|msg code]];
    cbn [outcome_of] in *.
  - split; [tauto|]. split; [discriminate | tauto].
  - now contradiction Hnp.
  - split; [|split].
    + split; [intro H; now apply Hneq in H | discriminate].
    + intros code' H. injection H as <-. exists msg. now split.
    + intros i Hi. apply in_app_or in Hi as [Hi|[<-|[]]]; [now left|].
      right. cbn [Zod.issue_message]. intro H.
      apply (f_equal (@List.length _)) in H.
      rewrite length_app in H. cbn in H. lia.
Qed.

Lemma hexaurl_refinement_issues_witness :
  exists msg,
    validate (str "-abc123") default_config 16
    = Throw (HexaUrlError msg LeadingTrailingHyphen)
    /\ Zod.hexaurl default_config 16 (str "-abc123") []
       = [] ++ [Zod.mkIssue "custom"
                  (msg ++ [Lit " (code: ";
                           Num (code_number LeadingTrailingHyphen);
                           Lit ")"])].
Proof.
  apply (hexaurl_refinement_issues default_config 16 (str "-abc123") []).
  reflexivity.
Defined.

(** ** The unrounded bound on integer lengths *)

